(** * The NPC chat gateway ([index.py]): model and verified properties

    [index.py] is a one-route Flask application.  [chat_handler] reads the
    JSON body of a POST request, forwards its ['txt'] entry to the Gemini
    SDK together with a fixed system instruction and a fixed response
    schema, and answers with a JSON envelope.

    The embedding follows the Python text line by line:
    - a Python [str] is the list of its Unicode code points, so that [len]
      and slicing count characters as Python does;
    - the values [request.get_json()] can yield are the values [json.loads]
      builds: [None], [bool], [int], [float], [str], [list], [dict];
    - statements run in a small state-and-exception monad: the state holds
      the module global [client] and the trace of what the process did
      (lines printed, stack traces printed, upstream calls issued), and a
      computation ends either normally or by raising an exception;
    - Flask and the Gemini SDK are not part of the repository: the outcome of
      [request.get_json()] is a field of the request, and the behaviour of
      [client.models.generate_content(...)] followed by [.text] is a function
      [upstream] of the trace so far and of the call's arguments.

    Standard output is a UTF-8 text stream, Python's default: writing a
    line raises [UnicodeEncodeError] when the line holds a surrogate code
    point, which a JSON body can carry (a lone [\ud83d] escape).  The log
    line of line 78 holds text of the request and is modelled with this
    failure.  The lines of the [except] clauses are ASCII literals and the
    [str()] of an exception; writing them is taken to succeed.

    Modelling boundary: exceptions are the instances of Python's [Exception]
    (interpreter signals such as [KeyboardInterrupt], which derive from
    [BaseException] only, are outside the model).  The texts of the
    interpreter's own [TypeError]s and [UnicodeEncodeError]s follow
    CPython 3.11. *)

From Stdlib Require Import String Ascii List ZArith NArith Bool Lia.
From Stdlib Require Decimal.
From Stdlib Require Import Floats.SpecFloat.
Import ListNotations.

Set Warnings "-register-all".

Local Open Scope string_scope.
Local Open Scope list_scope.

(** ** Python strings *)

(** A code point; a [str] is a sequence of them. *)
Definition codepoint := N.
Definition str := list codepoint.

Definition low6 (b : N) : N := N.land b 63.

(** UTF-8 decoding, used only to write the literals of the source (the
    file is UTF-8 encoded, and so are the string literals below). *)
Fixpoint utf8_decode (bs : list N) : str :=
  match bs with
  | [] => []
  | b0 :: t0 =>
    if (b0 <? 128)%N then b0 :: utf8_decode t0
    else if (b0 <? 224)%N then
      match t0 with
      | b1 :: t1 => (N.shiftl (N.land b0 31) 6 + low6 b1)%N :: utf8_decode t1
      | _ => []
      end
    else if (b0 <? 240)%N then
      match t0 with
      | b1 :: b2 :: t2 =>
        (N.shiftl (N.land b0 15) 12 + N.shiftl (low6 b1) 6 + low6 b2)%N
          :: utf8_decode t2
      | _ => []
      end
    else
      match t0 with
      | b1 :: b2 :: b3 :: t3 =>
        (N.shiftl (N.land b0 7) 18 + N.shiftl (low6 b1) 12
           + N.shiftl (low6 b2) 6 + low6 b3)%N :: utf8_decode t3
      | _ => []
      end
  end.

(** A string literal of the source. *)
Definition lit (s : string) : str :=
  utf8_decode (map N_of_ascii (list_ascii_of_string s)).
Arguments lit s%_string.

Fixpoint str_eqb (a b : str) : bool :=
  match a, b with
  | [], [] => true
  | x :: a', y :: b' => (x =? y)%N && str_eqb a' b'
  | _, _ => false
  end.

Fixpoint starts_with (prefix s : str) : bool :=
  match prefix, s with
  | [], _ => true
  | x :: p', y :: s' => (x =? y)%N && starts_with p' s'
  | _ :: _, [] => false
  end.

(** [needle in hay] on two strings: substring search. *)
Fixpoint str_contains (needle hay : str) : bool :=
  starts_with needle hay ||
  match hay with
  | [] => false
  | _ :: hay' => str_contains needle hay'
  end.

(** [str(n)] for an integer: its decimal digits. *)
Fixpoint uint_digits (u : Decimal.uint) : str :=
  match u with
  | Decimal.Nil => []
  | Decimal.D0 u' => 48%N :: uint_digits u'
  | Decimal.D1 u' => 49%N :: uint_digits u'
  | Decimal.D2 u' => 50%N :: uint_digits u'
  | Decimal.D3 u' => 51%N :: uint_digits u'
  | Decimal.D4 u' => 52%N :: uint_digits u'
  | Decimal.D5 u' => 53%N :: uint_digits u'
  | Decimal.D6 u' => 54%N :: uint_digits u'
  | Decimal.D7 u' => 55%N :: uint_digits u'
  | Decimal.D8 u' => 56%N :: uint_digits u'
  | Decimal.D9 u' => 57%N :: uint_digits u'
  end.

Definition decimal (z : Z) : str :=
  match Z.to_int z with
  | Decimal.Pos u => uint_digits u
  | Decimal.Neg u => 45%N :: uint_digits u
  end.

(** Four lower-case hexadecimal digits, as [%04x] writes them. *)
Definition hex_digit (d : N) : N :=
  if (d <? 10)%N then (48 + d)%N else (87 + d)%N.

Definition hex4 (c : N) : str :=
  [ hex_digit (N.land (N.shiftr c 12) 15); hex_digit (N.land (N.shiftr c 8) 15);
    hex_digit (N.land (N.shiftr c 4) 15); hex_digit (N.land c 15) ].

(** The code points UTF-8 cannot encode: the surrogates, U+D800 to
    U+DFFF. *)
Definition is_surrogate (c : codepoint) : bool :=
  (55296 <=? c)%N && (c <=? 57343)%N.

Definition has_surrogate (s : str) : bool := existsb is_surrogate s.

(** The index of the first surrogate of a string. *)
Fixpoint first_surrogate (s : str) : option nat :=
  match s with
  | [] => None
  | c :: s' =>
    if is_surrogate c then Some 0
    else match first_surrogate s' with
         | Some i => Some (S i)
         | None => None
         end
  end.

(** The number of surrogates a string starts with. *)
Fixpoint surrogate_run (s : str) : nat :=
  match s with
  | c :: s' => if is_surrogate c then S (surrogate_run s') else 0
  | [] => 0
  end.

(** ** Python values built by [json.loads] *)

Inductive json : Type :=
| JNull
| JBool (b : bool)
| JInt (z : Z)
| JFloat (f : spec_float)
| JStr (s : str)
| JList (l : list json)
| JObj (d : list (str * json)).

(** A [dict] is the list of its items; a key is looked up from the front. *)
Definition dict := list (str * json).

Fixpoint dict_get (k : str) (d : dict) : option json :=
  match d with
  | [] => None
  | (k', v) :: d' => if str_eqb k k' then Some v else dict_get k d'
  end.

Definition dict_has (k : str) (d : dict) : bool :=
  match dict_get k d with Some _ => true | None => false end.

(** [type(v).__name__] *)
Definition type_name (v : json) : str :=
  match v with
  | JNull => lit "NoneType"
  | JBool _ => lit "bool"
  | JInt _ => lit "int"
  | JFloat _ => lit "float"
  | JStr _ => lit "str"
  | JList _ => lit "list"
  | JObj _ => lit "dict"
  end.

(** [bool(v)]: what [not v] negates. *)
Definition truthy (v : json) : bool :=
  match v with
  | JNull => false
  | JBool b => b
  | JInt z => negb (z =? 0)%Z
  | JFloat (S754_zero _) => false
  | JFloat _ => true
  | JStr s => match s with [] => false | _ => true end
  | JList l => match l with [] => false | _ => true end
  | JObj d => match d with [] => false | _ => true end
  end.

(** ** Exceptions *)

(** [APIError] is the SDK's [google.genai.errors.APIError] (and its
    subclasses): [message] is its [.message] attribute, which the SDK
    declares optional, and [text] is [str(e)].  [Exception_] is any other
    instance of [Exception]: its class name and [str(e)]. *)
Inductive exn : Type :=
| APIError (message : option str) (text : str)
| Exception_ (cls : str) (text : str).

Definition exc_str (e : exn) : str :=
  match e with
  | APIError _ t => t
  | Exception_ _ t => t
  end.

Definition is_APIError (e : exn) : bool :=
  match e with
  | APIError _ _ => true
  | Exception_ _ _ => false
  end.

(** What an f-string writes for an optional string: [None] prints as the
    word. *)
Definition format_opt (o : option str) : str :=
  match o with
  | Some s => s
  | None => lit "None"
  end.

Definition TypeError (text : str) : exn := Exception_ (lit "TypeError") text.
Definition KeyError (text : str) : exn := Exception_ (lit "KeyError") text.
Definition UnicodeEncodeError (text : str) : exn :=
  Exception_ (lit "UnicodeEncodeError") text.

(** What encoding a line for standard output raises, if anything: the
    strict UTF-8 encoder stops at the first surrogate and reports the run of
    surrogates that starts there. *)
Definition encode_error (line : str) : option exn :=
  match first_surrogate line with
  | None => None
  | Some start =>
    let run := surrogate_run (skipn start line) in
    Some (UnicodeEncodeError
            (if Nat.eqb run 1 then
               lit "'utf-8' codec can't encode character '\u"
                 ++ hex4 (nth start line 0%N)
                 ++ lit "' in position " ++ decimal (Z.of_nat start)
                 ++ lit ": surrogates not allowed"
             else
               lit "'utf-8' codec can't encode characters in position "
                 ++ decimal (Z.of_nat start) ++ lit "-"
                 ++ decimal (Z.of_nat (start + run - 1))
                 ++ lit ": surrogates not allowed"))
  end.

Inductive result (A : Type) : Type :=
| Ret (a : A)
| Raise (e : exn).
Arguments Ret {A} a.
Arguments Raise {A} e.

(** ** The operators the handler applies to the body *)

Definition is_str (k : str) (v : json) : bool :=
  match v with
  | JStr s => str_eqb k s
  | _ => false
  end.

(** [k in v] for a string [k]. *)
Definition py_contains (k : str) (v : json) : result bool :=
  match v with
  | JObj d => Ret (dict_has k d)
  | JList l => Ret (existsb (is_str k) l)
  | JStr s => Ret (str_contains k s)
  | _ => Raise (TypeError (lit "argument of type '" ++ type_name v
                             ++ lit "' is not iterable"))
  end.

(** [v[k]] for a string [k]. *)
Definition py_getitem (k : str) (v : json) : result json :=
  match v with
  | JObj d =>
    match dict_get k d with
    | Some x => Ret x
    | None => Raise (KeyError (lit "'" ++ k ++ lit "'"))
    end
  | JList _ =>
    Raise (TypeError (lit "list indices must be integers or slices, not str"))
  | JStr _ =>
    Raise (TypeError (lit "string indices must be integers, not 'str'"))
  | _ => Raise (TypeError (lit "'" ++ type_name v
                             ++ lit "' object is not subscriptable"))
  end.

(** [len(v)] *)
Definition py_len (v : json) : result Z :=
  match v with
  | JStr s => Ret (Z.of_nat (length s))
  | JList l => Ret (Z.of_nat (length l))
  | JObj d => Ret (Z.of_nat (length d))
  | _ => Raise (TypeError (lit "object of type '" ++ type_name v
                             ++ lit "' has no len()"))
  end.

(** [v[:n]] *)
Definition py_slice_to (n : nat) (v : json) : result json :=
  match v with
  | JStr s => Ret (JStr (firstn n s))
  | JList l => Ret (JList (firstn n l))
  | JObj _ => Raise (TypeError (lit "unhashable type: 'slice'"))
  | _ => Raise (TypeError (lit "'" ++ type_name v
                             ++ lit "' object is not subscriptable"))
  end.

(** ** The response schema and the call configuration *)

(** [types.Type], the members the schema uses and their siblings. *)
Inductive Type_ : Type :=
| OBJECT | STRING | INTEGER | NUMBER | BOOLEAN | ARRAY.

(** [types.Schema], with the four fields the source sets; a field left out
    in the source is [None]. *)
Inductive Schema : Type :=
| mkSchema (type : Type_)
           (description : option str)
           (properties : option (list (str * Schema)))
           (required : option (list str)).

Definition schema_type (s : Schema) : Type_ :=
  match s with mkSchema t _ _ _ => t end.
Definition schema_description (s : Schema) : option str :=
  match s with mkSchema _ d _ _ => d end.
Definition schema_properties (s : Schema) : option (list (str * Schema)) :=
  match s with mkSchema _ _ p _ => p end.
Definition schema_required (s : Schema) : option (list str) :=
  match s with mkSchema _ _ _ r => r end.

(** A property declared with a type and a description only. *)
Definition field (t : Type_) (description : string) : Schema :=
  mkSchema t (Some (lit description)) None None.

Definition NPC_RESPONSE_SCHEMA : Schema :=
  mkSchema OBJECT None
    (Some
       [ (lit "text",
          field STRING "NPCの会話応答テキスト。セリフ以外は含めない。");
         (lit "newIntimacy",
          field INTEGER "会話後の親密度の新しい値（-100から100の範囲）。");
         (lit "newEmotion",
          field STRING "会話後のNPCの新しい感情の状態。例: '通常', '喜び', '怒り', '悲しみ', '驚き' など。");
         (lit "newTask",
          field STRING "NPCの現在の行動タスク。タスクがない場合は 'なし' と記述。");
         (lit "endChat",
          field BOOLEAN "プレイヤーが「さようなら」など会話を終える意志を示した場合、またはNPCが会話を強く終了したい場合にtrueにする。それ以外はfalse。");
         (lit "newDestination",
          field STRING "会話の結果、NPCが向かうべき目的地。プロンプトで提供されたリストから選択するか、移動しない場合は 'なし' と記述。");
         (lit "selectedTool",
          field STRING "NPCがプレイヤーの要求を満たすために使用すべきツール名。プロンプトで提供された利用可能なツールリストから選び、不要な場合は 'なし' と記述。") ])
    (Some [ lit "text"; lit "newIntimacy"; lit "newEmotion"; lit "newTask";
            lit "endChat"; lit "newDestination"; lit "selectedTool" ]).

Definition system_instruction : str :=
  lit ("あなたはゲーム内のNPCであり、Robloxのコミュニティガイドラインを厳守する必要があります。"
    ++ "いかなる不適切な、暴力的、差別的な、または個人を特定できる情報は絶対に生成してはいけません。"
    ++ "**プロンプトにはNPCの氏名（姓・名）、性別、および年齢が提供されています。これらの情報を含めたNPCのペルソナを厳密に維持し、会話を応答してください。**親密度の値に応じて会話のトーンを変えても構いません。"
    ++ "プロンプト全体を文脈として扱い、指示された厳密なJSON形式で応答してください。"
    ++ "プレイヤーが明確に会話を終了させようとした場合（例:「さようなら」「もう行くね」など）、またはNPC自身が会話を強く打ち切りたい場合、応答JSONの 'endChat' フィールドを true に設定してください。それ以外は false に設定してください。"
    ++ "プロンプト内で提供された目的地リストを考慮し、NPCの次の行動として適切な目的地を 'newDestination' フィールドに設定してください。移動が必要ない場合は 'なし' を設定してください。"
    ++ "**プロンプト内で提供されたツールリストを考慮し、NPCがプレイヤーの要求や現在の状況に対応するためにツールを使用すべきと判断した場合、そのツール名を 'selectedTool' フィールドに設定してください。ツールが不要な場合は 'なし' を設定してください。**"
    ++ "名前は聞かれた時以外応答に使わないでください。").

(** [types.GenerateContentConfig], with the three fields the source sets. *)
Record GenerateContentConfig : Type := mkConfig {
  cfg_system_instruction : str;
  response_mime_type : str;
  response_schema : Schema
}.

(** The keyword arguments of one [client.models.generate_content] call. *)
Record call : Type := mkCall {
  model : str;
  contents : json;
  config : GenerateContentConfig
}.

(** ** The process: globals, trace, requests, upstream *)

(** [genai.Client(api_key=...)] *)
Record Client : Type := mkClient { api_key : str }.

(** One piece of an f-string: literal text, or a value formatted in place. *)
Inductive piece : Type :=
| Lit (s : str)
| Fmt (v : json).

(** What the process does besides answering. *)
Inductive event : Type :=
| Print (line : list piece)
| PrintExc (e : exn)
| GenerateContent (c : call).

Record world : Type := mkWorld {
  client : option Client;
  trace : list event
}.

(** A request, by what [request.get_json()] does on it. *)
Record request : Type := mkRequest { get_json : result json }.

(** What one upstream call followed by [.text] does: the response text
    ([None] when the response carries no text), or an exception. *)
Definition upstream : Type := list event -> call -> result (option str).

(** Module start-up, lines 13-20: the client exists iff [GEMINI_API_KEY]
    is set to a non-empty string. *)
Definition make_client (GEMINI_API_KEY : option str) : option Client :=
  match GEMINI_API_KEY with
  | None => None
  | Some [] => None
  | Some k => Some (mkClient k)
  end.

(** ** Statements *)

Definition M (A : Type) : Type := world -> result A * world.

Definition ret {A} (a : A) : M A := fun w => (Ret a, w).
Definition raise {A} (e : exn) : M A := fun w => (Raise e, w).

Definition bind {A B} (m : M A) (k : A -> M B) : M B :=
  fun w =>
    match m w with
    | (Ret a, w') => k a w'
    | (Raise e, w') => (Raise e, w')
    end.

Notation "x <- m ;; k" := (bind m (fun x => k))
  (at level 61, m at next level, right associativity).
Notation "m ;; k" := (bind m (fun _ => k))
  (at level 61, right associativity).

(** An expression that may raise, evaluated as a statement. *)
Definition eval {A} (r : result A) : M A := fun w => (r, w).

Definition emit (ev : event) : M unit :=
  fun w => (Ret tt, mkWorld (client w) (trace w ++ [ev])).

(** [print(line)] for a line made of ASCII literals and the text of an
    exception, and [traceback.print_exc()], which goes to standard error
    with its characters escaped: the line is written. *)
Definition print (line : list piece) : M unit := emit (Print line).
Definition print_exc (e : exn) : M unit := emit (PrintExc e).

(** The text of line 78's f-string for a prompt of length [n] whose preview
    is the string [p]. *)
Definition prompt_text (n : Z) (p : str) : str :=
  lit "Received prompt (length " ++ decimal n ++ lit "): " ++ p ++ lit "...".

(** Line 78, [print(f"Received prompt (length {n}): {preview}...")]: the
    line is written, unless encoding it raises.  A preview that is a list is
    formatted through [repr], which escapes surrogates, so that its line
    can always be encoded. *)
Definition print_prompt (n : Z) (preview : json) : M unit :=
  let line := [ Lit (lit "Received prompt (length "); Fmt (JInt n);
                Lit (lit "): "); Fmt preview; Lit (lit "...") ] in
  match preview with
  | JStr p =>
    match encode_error (prompt_text n p) with
    | Some e => raise e
    | None => print line
    end
  | _ => print line
  end.

(** [try: body  except APIError as e: h1(e)  except Exception as e: h2(e)] *)
Definition try_except {A} (body : M A) (on_api on_other : exn -> M A) : M A :=
  fun w =>
    match body w with
    | (Ret a, w') => (Ret a, w')
    | (Raise e, w') => if is_APIError e then on_api e w' else on_other e w'
    end.

(** ** Responses *)

Record response : Type := mkResponse {
  body : json;
  status_code : Z
}.

(** [jsonify(d)]: a JSON response, status 200 until told otherwise. *)
Definition jsonify (d : dict) : response := mkResponse (JObj d) 200.

(** [return resp, code] *)
Definition with_status (r : response) (code : Z) : response :=
  mkResponse (body r) code.

Definition error_envelope (message : str) : dict :=
  [ (lit "status", JStr (lit "ERROR")); (lit "message", JStr message) ].

(** [json_text] is [api_response.text]: a string, or [None]. *)
Definition ok_envelope (json_text : option str) : dict :=
  [ (lit "status", JStr (lit "OK"));
    (lit "data", match json_text with Some t => JStr t | None => JNull end) ].

(** ** The handler *)

Section Handler.

Variable up : upstream.
Variable req : request.

(** [client.models.generate_content(...)] and [.text]: the call is issued,
    then the upstream decides. *)
Definition generate_content (c : call) : M (option str) :=
  fun w =>
    (up (trace w) c, mkWorld (client w) (trace w ++ [GenerateContent c])).

(** Lines 70-108, the body of the [try]. *)
Definition chat_try : M response :=
  data <- eval (get_json req) ;;
  if negb (truthy data) then
    ret (with_status
           (jsonify (error_envelope
                       (lit "Missing 'txt' field in JSON request body.")))
           400)
  else
    has_txt <- eval (py_contains (lit "txt") data) ;;
    if negb has_txt then
      ret (with_status
             (jsonify (error_envelope
                         (lit "Missing 'txt' field in JSON request body.")))
             400)
    else
      txt <- eval (py_getitem (lit "txt") data) ;;
      n <- eval (py_len txt) ;;
      preview <- eval (py_slice_to 100 txt) ;;
      print_prompt n preview ;;
      let config :=
        mkConfig system_instruction (lit "application/json")
                 NPC_RESPONSE_SCHEMA in
      json_text <- generate_content
                     (mkCall (lit "gemini-2.5-flash") txt config) ;;
      ret (jsonify (ok_envelope json_text)).

(** Lines 110-113. *)
Definition on_APIError (e : exn) : M response :=
  let error_msg :=
    lit "Gemini API Error: "
      ++ match e with
         | APIError message _ => format_opt message
         | Exception_ _ _ => []
         end in
  print [ Lit (lit "API Error: "); Lit (exc_str e) ] ;;
  ret (with_status (jsonify (error_envelope error_msg)) 500).

(** Lines 115-120. *)
Definition on_Exception (e : exn) : M response :=
  let error_msg := lit "Unexpected Error: " ++ exc_str e in
  print [ Lit (lit "--- UNEXPECTED INTERNAL SERVER ERROR ---") ] ;;
  print_exc e ;;
  print [ Lit (lit "----------------------------------------") ] ;;
  ret (with_status (jsonify (error_envelope error_msg)) 500).

(** Lines 65-120. *)
Definition chat_handler : M response :=
  fun w =>
    match client w with
    | None =>
      ret (jsonify (error_envelope
                      (lit "API client is not initialized (Missing API Key).")))
          w
    | Some _ => try_except chat_try on_APIError on_Exception w
    end.

End Handler.

(** ** Vocabulary of the statements *)

Arguments lit : simpl never.

(** The configuration and the call the handler builds for a prompt. *)
Definition npc_config : GenerateContentConfig :=
  mkConfig system_instruction (lit "application/json") NPC_RESPONSE_SCHEMA.

Definition npc_call (txt : json) : call :=
  mkCall (lit "gemini-2.5-flash") txt npc_config.

(** The line of line 78, for a prompt of length [n] with preview [p]. *)
Definition prompt_line (n : Z) (p : json) : event :=
  Print [ Lit (lit "Received prompt (length "); Fmt (JInt n);
          Lit (lit "): "); Fmt p; Lit (lit "...") ].

(** The previews whose log line can be written: every list, and the
    strings that hold no surrogate. *)
Definition encodable_preview (p : json) : bool :=
  match p with
  | JStr s => negb (has_surrogate s)
  | _ => true
  end.

(** The upstream calls recorded in a trace, oldest first. *)
Fixpoint calls (tr : list event) : list call :=
  match tr with
  | [] => []
  | GenerateContent c :: tr' => c :: calls tr'
  | _ :: tr' => calls tr'
  end.

(** The stack traces written to the server's output. *)
Fixpoint stack_traces (tr : list event) : list exn :=
  match tr with
  | [] => []
  | PrintExc e :: tr' => e :: stack_traces tr'
  | _ :: tr' => stack_traces tr'
  end.

(** A request whose body parsed to [v]. *)
Definition json_request (v : json) : request := mkRequest (Ret v).

(** The body [{"txt": s}]. *)
Definition txt_body (s : str) : json := JObj [ (lit "txt", JStr s) ].

(** The response of one run and the world it leaves. *)
Definition respond (up : upstream) (req : request) (w : world)
  : result response :=
  fst (chat_handler up req w).

Definition after (up : upstream) (req : request) (w : world) : world :=
  snd (chat_handler up req w).

(** The shape every envelope has: a status that is OK with [data] and no
    [message], or ERROR with [message] and no [data]. *)
Definition envelope_ok (b : json) : bool :=
  match b with
  | JObj d =>
    match dict_get (lit "status") d with
    | Some (JStr s) =>
      (str_eqb s (lit "OK")
         && dict_has (lit "data") d && negb (dict_has (lit "message") d))
      || (str_eqb s (lit "ERROR")
            && dict_has (lit "message") d && negb (dict_has (lit "data") d))
    | _ => false
    end
  | _ => false
  end.

(** An upstream whose answer depends on the call only, not on what the
    process did before. *)
Definition deterministic (up : upstream) : Prop :=
  forall h1 h2 c, up h1 c = up h2 c.

(** Mock upstreams. *)
Definition up_returns (t : str) : upstream := fun _ _ => Ret (Some t).
Definition up_raises (e : exn) : upstream := fun _ _ => Raise e.

(** An upstream that fails on its first call and answers afterwards. *)
Definition up_flaky (t : str) : upstream :=
  fun h _ =>
    match calls h with
    | [] => Raise (Exception_ (lit "ReadTimeout") (lit "timed out"))
    | _ => Ret (Some t)
    end.

Definition w0 : world := mkWorld (Some (mkClient (lit "key"))) [].

(** The answer of lines 72-75. *)
Definition missing_txt_response : response :=
  with_status
    (jsonify (error_envelope (lit "Missing 'txt' field in JSON request body.")))
    400.

(** The statement of C2: a body that maps ['txt'] to the empty string is
    answered with the validation failure, and no upstream call is issued. *)
Definition empty_txt_rejected : Prop :=
  forall (up : upstream) (w : world) (c : Client) (d : dict),
    client w = Some c ->
    dict_get (lit "txt") d = Some (JStr []) ->
    respond up (json_request (JObj d)) w = Ret missing_txt_response
    /\ calls (trace (after up (json_request (JObj d)) w)) = calls (trace w).

(** The text of the specification's example: an NPC response as the
    upstream would return it (34 is the double quote). *)
Definition example_npc_text : str :=
  let q := [34%N] in
  lit "{" ++ q ++ lit "text" ++ q ++ lit ":" ++ q ++ lit "hi" ++ q
    ++ lit "," ++ q ++ lit "newIntimacy" ++ q ++ lit ":5,"
    ++ q ++ lit "newEmotion" ++ q ++ lit ":" ++ q ++ lit "joy" ++ q
    ++ lit "," ++ q ++ lit "newTask" ++ q ++ lit ":" ++ q ++ lit "none" ++ q
    ++ lit "," ++ q ++ lit "endChat" ++ q ++ lit ":false,"
    ++ q ++ lit "newDestination" ++ q ++ lit ":" ++ q ++ lit "none" ++ q
    ++ lit "," ++ q ++ lit "selectedTool" ++ q ++ lit ":" ++ q ++ lit "none"
    ++ q ++ lit "}".

(** The declared properties of a schema, with their types, in order. *)
Definition property_types (s : Schema) : list (str * Type_) :=
  match schema_properties s with
  | Some ps => map (fun kv => (fst kv, schema_type (snd kv))) ps
  | None => []
  end.

(** A call that asks for structured output: JSON mime type and the NPC
    response schema. *)
Definition structured_output (c : call) : Prop :=
  response_mime_type (config c) = lit "application/json"
  /\ response_schema (config c) = NPC_RESPONSE_SCHEMA.

(** ** Start-up and serving, and the vocabulary of the further statements *)

(** Lines 13-23 with what they print: without a key (unset, or empty, both
    of which [not API_KEY] accepts) the fatal line is printed and [client]
    is [None]; otherwise the client is built from the key.  The starting
    line is printed in both cases. *)
Definition boot (GEMINI_API_KEY : option str) : world :=
  let starting :=
    Print [Lit (lit "starting Gemini API gateway with structured output...")] in
  match GEMINI_API_KEY with
  | None | Some [] =>
    mkWorld None
      [ Print [Lit (lit "FATAL ERROR: GEMINI_API_KEY が設定されていません。Replit Secrets を確認してください。")];
        starting ]
  | Some k => mkWorld (Some (mkClient k)) [ starting ]
  end.

(** The route serving requests one after the other: each run of the
    handler starts in the world the previous one left. *)
Fixpoint handle_all (up : upstream) (reqs : list request) (w : world)
  : list (result response) * world :=
  match reqs with
  | [] => ([], w)
  | req :: rest =>
    let (r, w1) := chat_handler up req w in
    let (rs, w2) := handle_all up rest w1 in
    (r :: rs, w2)
  end.

(** What one run appended to the trace. *)
Definition new_events (up : upstream) (req : request) (w : world)
  : list event :=
  skipn (length (trace w)) (trace (after up req w)).

(** The answer of lines 66-67. *)
Definition uninitialized_response : response :=
  jsonify (error_envelope
             (lit "API client is not initialized (Missing API Key).")).

(** The answers and the output of the two [except] clauses. *)
Definition error_response (e : exn) : response :=
  match e with
  | APIError message _ =>
    with_status
      (jsonify (error_envelope (lit "Gemini API Error: " ++ format_opt message)))
      500
  | Exception_ _ text =>
    with_status
      (jsonify (error_envelope (lit "Unexpected Error: " ++ text))) 500
  end.

Definition error_log (e : exn) : list event :=
  match e with
  | APIError _ text => [ Print [Lit (lit "API Error: "); Lit text] ]
  | Exception_ _ _ =>
    [ Print [Lit (lit "--- UNEXPECTED INTERNAL SERVER ERROR ---")];
      PrintExc e;
      Print [Lit (lit "----------------------------------------")] ]
  end.

(** The values line 78 can log: those with a length and a slice. *)
Definition loggable (v : json) : bool :=
  match v with
  | JStr _ | JList _ => true
  | _ => false
  end.

(** The values that are not containers. *)
Definition scalar (v : json) : bool :=
  match v with
  | JNull | JBool _ | JInt _ | JFloat _ => true
  | _ => false
  end.

(** The guard of line 71 on a parsed body. *)
Definition guard_fires (data : json) : Prop :=
  truthy data = false \/ py_contains (lit "txt") data = Ret false.

(** The five ways a run of the handler can go, each with the response it
    returns and the events it appends. *)
Inductive path (up : upstream) (req : request) (w : world)
  : response -> list event -> Prop :=
| path_uninitialized :
    client w = None ->
    path up req w uninitialized_response []
| path_missing (c : Client) (data : json) :
    client w = Some c ->
    get_json req = Ret data ->
    guard_fires data ->
    path up req w missing_txt_response []
| path_raised (c : Client) (e : exn) :
    client w = Some c ->
    (forall w', chat_try up req w' = (Raise e, w')) ->
    path up req w (error_response e) (error_log e)
| path_answered (c : Client) (d : dict) (txt : json) (n : Z) (p : json)
                (t : option str) :
    client w = Some c ->
    get_json req = Ret (JObj d) ->
    dict_get (lit "txt") d = Some txt ->
    py_len txt = Ret n ->
    py_slice_to 100 txt = Ret p ->
    encodable_preview p = true ->
    up (trace w ++ [prompt_line n p]) (npc_call txt) = Ret t ->
    path up req w (jsonify (ok_envelope t))
         [ prompt_line n p; GenerateContent (npc_call txt) ]
| path_upstream_raised (c : Client) (d : dict) (txt : json) (n : Z)
                       (p : json) (e : exn) :
    client w = Some c ->
    get_json req = Ret (JObj d) ->
    dict_get (lit "txt") d = Some txt ->
    py_len txt = Ret n ->
    py_slice_to 100 txt = Ret p ->
    encodable_preview p = true ->
    up (trace w ++ [prompt_line n p]) (npc_call txt) = Raise e ->
    path up req w (error_response e)
         ([ prompt_line n p; GenerateContent (npc_call txt) ] ++ error_log e).

(** ** Basic facts *)

Lemma calls_app (a b : list event) : calls (a ++ b) = calls a ++ calls b.
Proof.
  induction a as [|ev a IH]; simpl; [reflexivity|].
  destruct ev; simpl; rewrite IH; reflexivity.
Qed.

Lemma stack_traces_app (a b : list event) :
  stack_traces (a ++ b) = stack_traces a ++ stack_traces b.
Proof.
  induction a as [|ev a IH]; simpl; [reflexivity|].
  destruct ev; simpl; rewrite IH; reflexivity.
Qed.

Lemma dict_get_nonempty (k : str) (d : dict) (v : json) :
  dict_get k d = Some v -> truthy (JObj d) = true.
Proof. destruct d; simpl; [discriminate | reflexivity]. Qed.

Lemma str_eqb_refl (s : str) : str_eqb s s = true.
Proof.
  induction s as [|x s IH]; simpl; [reflexivity|].
  rewrite N.eqb_refl. exact IH.
Qed.

Lemma str_eqb_eq (a b : str) : str_eqb a b = true <-> a = b.
Proof.
  split; [|intros ->; apply str_eqb_refl].
  revert b; induction a as [|x a IH]; intros [|y b]; simpl;
    try discriminate; [reflexivity|].
  intros H. apply andb_true_iff in H as [Hx Hab].
  apply N.eqb_eq in Hx. apply IH in Hab. congruence.
Qed.

(** The two [except] clauses answer 500 and issue no upstream call. *)
Lemma on_APIError_run (e : exn) (w : world) :
  on_APIError e w =
  (Ret (with_status
          (jsonify (error_envelope
                      (lit "Gemini API Error: "
                         ++ match e with
                            | APIError message _ => format_opt message
                            | Exception_ _ _ => []
                            end))) 500),
   mkWorld (client w)
           (trace w ++ [Print [Lit (lit "API Error: "); Lit (exc_str e)]])).
Proof. reflexivity. Qed.

Lemma on_Exception_run (e : exn) (w : world) :
  on_Exception e w =
  (Ret (with_status
          (jsonify (error_envelope (lit "Unexpected Error: " ++ exc_str e)))
          500),
   mkWorld (client w)
           (((trace w
                ++ [Print [Lit (lit "--- UNEXPECTED INTERNAL SERVER ERROR ---")]])
               ++ [PrintExc e])
              ++ [Print [Lit (lit "----------------------------------------")]])).
Proof. reflexivity. Qed.

(** Without a client the handler answers at once and touches nothing. *)
Lemma handler_uninitialized (up : upstream) (req : request) (w : world) :
  client w = None ->
  chat_handler up req w =
  (Ret (jsonify (error_envelope
                   (lit "API client is not initialized (Missing API Key)."))),
   w).
Proof. intros H. unfold chat_handler. rewrite H. reflexivity. Qed.

(** With a client, the handler is the [try] statement. *)
Lemma handler_initialized (up : upstream) (req : request) (w : world)
      (c : Client) :
  client w = Some c ->
  chat_handler up req w =
  try_except (chat_try up req) on_APIError on_Exception w.
Proof. intros H. unfold chat_handler. rewrite H. reflexivity. Qed.

(** Encoding fails exactly on the lines that hold a surrogate. *)
Lemma first_surrogate_none (s : str) :
  first_surrogate s = None <-> has_surrogate s = false.
Proof.
  induction s as [|x s IH]; simpl; [tauto|].
  destruct (is_surrogate x); simpl; [split; discriminate|].
  destruct (first_surrogate s) as [i|].
  - split; [discriminate|]. intros H. apply IH in H. discriminate H.
  - split; [intros _; apply IH; reflexivity | reflexivity].
Qed.

Lemma uint_digits_no_surrogate (u : Decimal.uint) :
  has_surrogate (uint_digits u) = false.
Proof. induction u; simpl; try reflexivity; exact IHu. Qed.

Lemma decimal_no_surrogate (z : Z) : has_surrogate (decimal z) = false.
Proof.
  unfold decimal. destruct (Z.to_int z); [|simpl];
    apply uint_digits_no_surrogate.
Qed.

Lemma prompt_text_surrogate (n : Z) (p : str) :
  has_surrogate (prompt_text n p) = has_surrogate p.
Proof.
  unfold prompt_text, has_surrogate. rewrite !existsb_app.
  fold (has_surrogate (decimal n)). rewrite decimal_no_surrogate.
  replace (existsb is_surrogate (lit "Received prompt (length ")) with false
    by (vm_compute; reflexivity).
  replace (existsb is_surrogate (lit "): ")) with false
    by (vm_compute; reflexivity).
  replace (existsb is_surrogate (lit "...")) with false
    by (vm_compute; reflexivity).
  cbn [orb]. apply orb_false_r.
Qed.

(** Line 78 writes its line when the preview can be encoded, and raises,
    leaving the output untouched, when it cannot. *)
Lemma print_prompt_writes (n : Z) (p : json) (w : world) :
  encodable_preview p = true ->
  print_prompt n p w
  = (Ret tt,
     mkWorld (client w)
             (trace w
                ++ [Print [ Lit (lit "Received prompt (length "); Fmt (JInt n);
                            Lit (lit "): "); Fmt p; Lit (lit "...") ]])).
Proof.
  intros Henc. unfold print_prompt.
  destruct p; try reflexivity.
  unfold encode_error.
  assert (Hnone : first_surrogate (prompt_text n s) = None).
  { apply first_surrogate_none. rewrite prompt_text_surrogate.
    cbn [encodable_preview] in Henc. destruct (has_surrogate s);
      [discriminate | reflexivity]. }
  rewrite Hnone. reflexivity.
Qed.

Lemma print_prompt_raises (n : Z) (p : json) :
  encodable_preview p = false ->
  exists m, forall w, print_prompt n p w = (Raise (UnicodeEncodeError m), w).
Proof.
  intros Henc. unfold print_prompt.
  destruct p; try discriminate Henc.
  cbn [encodable_preview] in Henc.
  unfold encode_error.
  destruct (first_surrogate (prompt_text n s)) as [start|] eqn:Hfirst.
  - eexists. intros w. reflexivity.
  - apply first_surrogate_none in Hfirst.
    rewrite prompt_text_surrogate in Hfirst. rewrite Hfirst in Henc.
    discriminate Henc.
Qed.

(** The [try] body up to the upstream call, for a body that is a [dict]
    holding a ['txt'] whose length and preview can be taken, when the log
    line can be written. *)
Lemma chat_try_reaches_upstream
      (up : upstream) (w : world) (d : dict) (txt : json) (n : Z) (p : json) :
  dict_get (lit "txt") d = Some txt ->
  py_len txt = Ret n ->
  py_slice_to 100 txt = Ret p ->
  encodable_preview p = true ->
  chat_try up (json_request (JObj d)) w =
  (match up (trace w ++ [prompt_line n p]) (npc_call txt) with
   | Ret t => Ret (jsonify (ok_envelope t))
   | Raise e => Raise e
   end,
   mkWorld (client w)
           ((trace w ++ [prompt_line n p]) ++ [GenerateContent (npc_call txt)])).
Proof.
  intros Hget Hlen Hslice Henc.
  unfold chat_try, bind, eval, json_request, get_json.
  rewrite (dict_get_nonempty _ _ _ Hget). cbn [negb].
  unfold py_contains, dict_has. rewrite Hget. cbn [negb].
  unfold py_getitem. rewrite Hget, Hlen, Hslice.
  rewrite (print_prompt_writes n p w Henc).
  unfold generate_content, ret, prompt_line, npc_call, npc_config.
  cbn [client trace].
  destruct (up _ _); reflexivity.
Qed.

(** A string always has a length and a preview. *)
Lemma chat_try_on_prompt (up : upstream) (w : world) (d : dict) (s : str) :
  dict_get (lit "txt") d = Some (JStr s) ->
  has_surrogate (firstn 100 s) = false ->
  chat_try up (json_request (JObj d)) w =
  (match up (trace w ++ [prompt_line (Z.of_nat (length s)) (JStr (firstn 100 s))])
            (npc_call (JStr s)) with
   | Ret t => Ret (jsonify (ok_envelope t))
   | Raise e => Raise e
   end,
   mkWorld (client w)
           ((trace w
               ++ [prompt_line (Z.of_nat (length s)) (JStr (firstn 100 s))])
              ++ [GenerateContent (npc_call (JStr s))])).
Proof.
  intros Hget Hs.
  apply chat_try_reaches_upstream; [exact Hget | reflexivity | reflexivity |].
  cbn [encodable_preview]. rewrite Hs. reflexivity.
Qed.

(** The three ways the [try] body can go, decided by the request alone:
    it raises before anything was written, it returns the 400 response
    before anything was written, or it reaches the upstream call. *)
Lemma chat_try_cases (up : upstream) (req : request) :
  (exists e, forall w, chat_try up req w = (Raise e, w))
  \/ (forall w, chat_try up req w = (Ret missing_txt_response, w))
  \/ (exists d txt n p,
         req = json_request (JObj d)
         /\ dict_get (lit "txt") d = Some txt
         /\ py_len txt = Ret n
         /\ py_slice_to 100 txt = Ret p
         /\ encodable_preview p = true).
Proof.
  destruct req as [[data|e]].
  2: { left. exists e. reflexivity. }
  unfold chat_try, bind, eval, get_json.
  destruct (truthy data) eqn:Htruthy; cbn [negb].
  2: { right; left. reflexivity. }
  destruct (py_contains (lit "txt") data) as [has|e] eqn:Hin.
  2: { left. exists e. reflexivity. }
  destruct has; cbn [negb].
  2: { right; left. reflexivity. }
  destruct (py_getitem (lit "txt") data) as [txt|e] eqn:Hitem.
  2: { left. exists e. reflexivity. }
  destruct (py_len txt) as [n|e] eqn:Hlen.
  2: { left. exists e. reflexivity. }
  destruct (py_slice_to 100 txt) as [p|e] eqn:Hslice.
  2: { left. exists e. reflexivity. }
  destruct (encodable_preview p) eqn:Henc.
  2: { left. destruct (print_prompt_raises n p Henc) as [m Hm].
       exists (UnicodeEncodeError m). intros w. rewrite Hm. reflexivity. }
  right; right.
  destruct data; try discriminate Hitem.
  unfold py_getitem in Hitem.
  destruct (dict_get (lit "txt") d) as [x|] eqn:Hget; [|discriminate].
  injection Hitem as ->.
  exists d, txt, n, p. repeat split; assumption.
Qed.

Lemma error_envelope_ok (m : str) (code : Z) :
  envelope_ok (body (with_status (jsonify (error_envelope m)) code)) = true.
Proof. vm_compute. reflexivity. Qed.

Lemma ok_envelope_ok (t : option str) :
  envelope_ok (body (jsonify (ok_envelope t))) = true.
Proof. destruct t; vm_compute; reflexivity. Qed.

(** One run of the handler, whatever the request and the upstream: it
    returns a response with a well-formed envelope, leaves [client] alone,
    only appends to the trace, and issues no upstream call or one call built
    by [npc_call]. *)
Lemma handler_shape (up : upstream) (req : request) (w : world) :
  exists r evs,
    chat_handler up req w = (Ret r, mkWorld (client w) (trace w ++ evs))
    /\ envelope_ok (body r) = true
    /\ (calls evs = [] \/ exists txt, calls evs = [npc_call txt]).
Proof.
  destruct w as [cl tr]. destruct cl as [c|].
  2: { eexists; exists []. rewrite handler_uninitialized by reflexivity.
       rewrite app_nil_r. split; [reflexivity|].
       split; [apply (error_envelope_ok _ 200) | left; reflexivity]. }
  rewrite (handler_initialized _ _ _ c) by reflexivity.
  unfold try_except.
  destruct (chat_try_cases up req)
    as [[e He] | [He | (d & txt & n & p & -> & Hget & Hlen & Hslice & Henc)]];
    rewrite ?He.
  - destruct (is_APIError e);
      [rewrite on_APIError_run | rewrite on_Exception_run];
      cbn [client trace]; rewrite <- ?app_assoc;
      eexists; eexists; (split; [reflexivity|]);
      (split; [apply error_envelope_ok | left; reflexivity]).
  - eexists; exists []. rewrite app_nil_r. split; [reflexivity|].
    split; [apply error_envelope_ok | left; reflexivity].
  - rewrite (chat_try_reaches_upstream up _ d txt n p Hget Hlen Hslice Henc).
    cbn [client trace].
    destruct (up _ _) as [t|e].
    + rewrite <- ?app_assoc. eexists; eexists. split; [reflexivity|].
      split; [apply ok_envelope_ok | right; exists txt; reflexivity].
    + destruct (is_APIError e);
        [rewrite on_APIError_run | rewrite on_Exception_run];
        cbn [client trace]; rewrite <- ?app_assoc;
        eexists; eexists; (split; [reflexivity|]);
        (split; [apply error_envelope_ok | right; exists txt; reflexivity]).
Qed.

(** The response of a run depends on the world only through [client] and
    through what the upstream makes of the trace. *)
Lemma respond_ext (up : upstream) (req : request) (w1 w2 : world) :
  deterministic up ->
  client w1 = client w2 ->
  respond up req w1 = respond up req w2.
Proof.
  intros Hdet Hcl. unfold respond.
  destruct w1 as [cl tr1], w2 as [cl2 tr2]. cbn [client] in Hcl. subst cl2.
  destruct cl as [c|].
  2: { rewrite !handler_uninitialized by reflexivity. reflexivity. }
  rewrite !(handler_initialized _ _ _ c) by reflexivity.
  unfold try_except.
  destruct (chat_try_cases up req)
    as [[e He] | [He | (d & txt & n & p & -> & Hget & Hlen & Hslice & Henc)]];
    rewrite ?He.
  - destruct (is_APIError e);
      [rewrite !on_APIError_run | rewrite !on_Exception_run]; reflexivity.
  - reflexivity.
  - rewrite !(chat_try_reaches_upstream up _ d txt n p Hget Hlen Hslice Henc).
    cbn [client trace].
    rewrite (Hdet (tr1 ++ [prompt_line n p]) (tr2 ++ [prompt_line n p])).
    destruct (up _ _) as [t|e]; [reflexivity|].
    destruct (is_APIError e);
      [rewrite !on_APIError_run | rewrite !on_Exception_run]; reflexivity.
Qed.

Lemma except_clauses_run (e : exn) (w : world) :
  (if is_APIError e then on_APIError e w else on_Exception e w)
  = (Ret (error_response e), mkWorld (client w) (trace w ++ error_log e)).
Proof.
  destruct e as [message text | cls text]; cbn [is_APIError].
  - rewrite on_APIError_run. reflexivity.
  - rewrite on_Exception_run. cbn [exc_str error_response error_log].
    rewrite <- !app_assoc. reflexivity.
Qed.

Lemma new_events_of_run (up : upstream) (req : request) (w : world)
      (r : response) (evs : list event) :
  chat_handler up req w = (Ret r, mkWorld (client w) (trace w ++ evs)) ->
  respond up req w = Ret r
  /\ trace (after up req w) = trace w ++ evs
  /\ new_events up req w = evs
  /\ client (after up req w) = client w.
Proof.
  intros H. unfold new_events, respond, after. rewrite H. cbn [fst snd trace client].
  repeat split.
  rewrite skipn_app, skipn_all, Nat.sub_diag. reflexivity.
Qed.

Lemma calls_error_log (e : exn) : calls (error_log e) = [].
Proof. destruct e; reflexivity. Qed.

(** A run that reaches the upstream call, in full. *)
Lemma run_on_loggable (up : upstream) (w : world) (c : Client) (d : dict)
      (txt : json) (n : Z) (p : json) :
  client w = Some c ->
  dict_get (lit "txt") d = Some txt ->
  py_len txt = Ret n ->
  py_slice_to 100 txt = Ret p ->
  encodable_preview p = true ->
  chat_handler up (json_request (JObj d)) w
  = match up (trace w ++ [prompt_line n p]) (npc_call txt) with
    | Ret t =>
      (Ret (jsonify (ok_envelope t)),
       mkWorld (client w)
               (trace w ++ [ prompt_line n p; GenerateContent (npc_call txt) ]))
    | Raise e =>
      (Ret (error_response e),
       mkWorld (client w)
               (trace w ++ [ prompt_line n p; GenerateContent (npc_call txt) ]
                  ++ error_log e))
    end.
Proof.
  intros Hc Hget Hlen Hslice Henc.
  rewrite (handler_initialized up _ w c Hc). unfold try_except.
  rewrite (chat_try_reaches_upstream up w d txt n p Hget Hlen Hslice Henc).
  destruct (up _ _) as [t|e].
  - rewrite <- app_assoc. reflexivity.
  - rewrite except_clauses_run. cbn [client trace].
    rewrite <- !app_assoc. reflexivity.
Qed.

Lemma status_code_error_response (e : exn) :
  status_code (error_response e) = 500%Z.
Proof. destruct e; reflexivity. Qed.

(** A run whose [try] body raises before the upstream call. *)
Lemma early_raise_run (up : upstream) (req : request) (w : world)
      (c : Client) (e : exn) :
  client w = Some c ->
  (forall w', chat_try up req w' = (Raise e, w')) ->
  respond up req w = Ret (error_response e)
  /\ trace (after up req w) = trace w ++ error_log e
  /\ calls (trace (after up req w)) = calls (trace w).
Proof.
  intros Hc He. unfold respond, after.
  rewrite (handler_initialized up req w c Hc). unfold try_except.
  rewrite He, except_clauses_run. cbn [fst snd trace].
  rewrite calls_app, calls_error_log, app_nil_r. repeat split.
Qed.

(** On an object body that holds ['txt'], the [try] body goes on with the
    value of ['txt'] alone. *)
Lemma chat_try_on_txt (up : upstream) (d : dict) (v : json) (w : world) :
  dict_get (lit "txt") d = Some v ->
  chat_try up (json_request (JObj d)) w
  = (n <- eval (py_len v) ;;
     preview <- eval (py_slice_to 100 v) ;;
     print_prompt n preview ;;
     json_text <- generate_content up (npc_call v) ;;
     ret (jsonify (ok_envelope json_text))) w.
Proof.
  intros Hget. unfold chat_try, bind, eval, json_request, get_json.
  rewrite (dict_get_nonempty _ _ _ Hget). cbn [negb].
  unfold py_contains, dict_has, py_getitem. rewrite Hget. reflexivity.
Qed.

(** A string prompt whose first 100 characters hold a surrogate: line 78
    raises before anything is written. *)
Lemma chat_try_unencodable (up : upstream) (d : dict) (s : str) :
  dict_get (lit "txt") d = Some (JStr s) ->
  has_surrogate (firstn 100 s) = true ->
  exists m, forall w,
      chat_try up (json_request (JObj d)) w = (Raise (UnicodeEncodeError m), w).
Proof.
  intros Hget Hs.
  assert (Henc : encodable_preview (JStr (firstn 100 s)) = false)
    by (cbn [encodable_preview]; rewrite Hs; reflexivity).
  destruct (print_prompt_raises (Z.of_nat (length s)) _ Henc) as [m Hm].
  exists m. intros w. rewrite (chat_try_on_txt up d (JStr s) w Hget).
  unfold bind, eval. cbn [py_len py_slice_to]. rewrite Hm. reflexivity.
Qed.

(** ** Validation *)

(** Where the guard of line 71 fires, the handler answers 400 and does
    nothing else: nothing is printed and no upstream call is issued. *)
Lemma missing_txt_answers_400
      (up : upstream) (w : world) (c : Client) (data : json) :
  client w = Some c ->
  truthy data = false \/ py_contains (lit "txt") data = Ret false ->
  chat_handler up (json_request data) w = (Ret missing_txt_response, w).
Proof.
  intros Hc Hguard. rewrite (handler_initialized _ _ _ c Hc).
  unfold try_except, chat_try, bind, eval, json_request, get_json.
  destruct (truthy data) eqn:Ht; cbn [negb]; [|reflexivity].
  destruct Hguard as [Hf | Hin]; [discriminate|].
  rewrite Hin. reflexivity.
Qed.

(** The bodies the guard catches: [None], [false], [0], [0.0], the empty
    string, list and object, and objects, lists and strings without
    ['txt']. *)
Example missing_txt_bodies :
  map (fun data => respond (up_returns (lit "hi")) (json_request data) w0)
      [ JNull; JBool false; JInt 0; JFloat (S754_zero true); JStr [];
        JList []; JObj []; JObj [ (lit "text", JStr (lit "hello")) ];
        JList [ JStr (lit "hello") ]; JStr (lit "hello") ]
  = repeat (Ret missing_txt_response) 10.
Proof. vm_compute. reflexivity. Qed.

(** When [request.get_json()] itself raises, the handler's last [except]
    clause answers 500. *)
Lemma get_json_raises_answers_500
      (up : upstream) (w : world) (c : Client) (cls text : str) :
  client w = Some c ->
  respond up (mkRequest (Raise (Exception_ cls text))) w =
  Ret (with_status
         (jsonify (error_envelope (lit "Unexpected Error: " ++ text))) 500).
Proof.
  intros Hc. unfold respond. rewrite (handler_initialized _ _ _ c Hc).
  reflexivity.
Qed.

(** C1, at the body [5]: a JSON body that is a non-zero number has no
    ['txt'] field, yet the handler does not answer 400 with the "Missing
    'txt' field" envelope: [ 'txt' not in data ] raises a [TypeError], and
    the last [except] clause answers 500 with an "Unexpected Error: ..."
    envelope.  No upstream call is issued. *)
Theorem C1_number_body_answers_500 (up : upstream) (c : Client)
        (tr : list event) :
  exists m,
    respond up (json_request (JInt 5)) (mkWorld (Some c) tr) =
    Ret (mkResponse
           (JObj [ (lit "status", JStr (lit "ERROR"));
                   (lit "message", JStr (lit "Unexpected Error: " ++ m)) ])
           500)
    /\ calls (trace (after up (json_request (JInt 5)) (mkWorld (Some c) tr)))
       = calls tr.
Proof.
  eexists. split; [reflexivity|].
  unfold after, chat_handler, try_except. cbn.
  rewrite !calls_app. cbn. rewrite !app_nil_r. reflexivity.
Qed.

(** C2 fails at the body that maps ["txt"] to the empty string, with an upstream that answers
    ["{}"]: the handler issues an upstream call with the empty prompt and
    answers 200 with an OK envelope. *)
Lemma C2_empty_txt_reaches_upstream :
  respond (up_returns (lit "{}")) (json_request (txt_body [])) w0
  = Ret (mkResponse
           (JObj [ (lit "status", JStr (lit "OK"));
                   (lit "data", JStr (lit "{}")) ])
           200)
  /\ calls (trace (after (up_returns (lit "{}")) (json_request (txt_body [])) w0))
     = [ npc_call (JStr []) ]
  /\ ~ empty_txt_rejected.
Proof.
  split; [vm_compute; reflexivity|].
  split; [vm_compute; reflexivity|].
  intros H.
  destruct (H (up_returns (lit "{}")) w0 (mkClient (lit "key"))
              [ (lit "txt", JStr []) ] eq_refl eq_refl) as [_ Hcalls].
  vm_compute in Hcalls. discriminate Hcalls.
Qed.

(** C2, amended: a body that maps ['txt'] to the empty string passes the
    guard, which only asks for ['txt'] to be present.  The run logs the
    prompt (length 0, empty preview) and issues exactly one upstream call,
    with the empty string as [contents]; the answer follows the outcome of
    that call: 200 with the OK envelope when it returns, 500 with the error
    envelope of the matching [except] clause when it raises.  It is never the
    400 response. *)
Theorem C2_empty_txt_is_forwarded
        (up : upstream) (w : world) (c : Client) (d : dict) :
  client w = Some c ->
  dict_get (lit "txt") d = Some (JStr []) ->
  (exists rest,
      new_events up (json_request (JObj d)) w
      = prompt_line 0 (JStr []) :: GenerateContent (npc_call (JStr [])) :: rest
      /\ calls rest = [])
  /\ calls (trace (after up (json_request (JObj d)) w))
     = calls (trace w) ++ [ npc_call (JStr []) ]
  /\ respond up (json_request (JObj d)) w
     = match up (trace w ++ [prompt_line 0 (JStr [])]) (npc_call (JStr [])) with
       | Ret t => Ret (mkResponse (JObj (ok_envelope t)) 200)
       | Raise (APIError message _) =>
         Ret (mkResponse
                (JObj (error_envelope
                         (lit "Gemini API Error: " ++ format_opt message)))
                500)
       | Raise (Exception_ _ text) =>
         Ret (mkResponse
                (JObj (error_envelope (lit "Unexpected Error: " ++ text)))
                500)
       end.
Proof.
  intros Hc Hget.
  pose proof (run_on_loggable up w c d (JStr []) 0 (JStr [])
                              Hc Hget eq_refl eq_refl eq_refl) as Hrun.
  destruct (up (trace w ++ [prompt_line 0 (JStr [])]) (npc_call (JStr [])))
    as [t|e];
    destruct (new_events_of_run up _ w _ _ Hrun) as (Hr & Htr & Hev & _);
    rewrite Hr, Htr, Hev; cbn [app]; rewrite !calls_app; cbn [calls];
    rewrite ?calls_error_log.
  - split; [exists []; split; reflexivity|]. split; reflexivity.
  - split; [exists (error_log e); split; [reflexivity | apply calls_error_log]|].
    split; [reflexivity|]. destruct e; reflexivity.
Qed.

Lemma C2_empty_txt_is_forwarded_witness :
  (exists rest,
      new_events (up_raises (Exception_ (lit "ReadTimeout") (lit "timed out")))
                 (json_request (txt_body [])) w0
      = prompt_line 0 (JStr []) :: GenerateContent (npc_call (JStr [])) :: rest
      /\ calls rest = [])
  /\ calls (trace (after (up_raises (Exception_ (lit "ReadTimeout") (lit "timed out")))
                         (json_request (txt_body [])) w0))
     = calls (trace w0) ++ [ npc_call (JStr []) ]
  /\ respond (up_raises (Exception_ (lit "ReadTimeout") (lit "timed out")))
             (json_request (txt_body [])) w0
     = Ret (mkResponse
              (JObj (error_envelope (lit "Unexpected Error: " ++ lit "timed out")))
              500).
Proof.
  exact (C2_empty_txt_is_forwarded
           (up_raises (Exception_ (lit "ReadTimeout") (lit "timed out")))
           w0 (mkClient (lit "key")) [ (lit "txt", JStr []) ]
           eq_refl eq_refl).
Defined.

(** The exact answer to the body [5], with CPython 3.11's wording. *)
Example number_body_message :
  respond (up_returns (lit "hi")) (json_request (JInt 5)) w0
  = Ret (with_status
           (jsonify (error_envelope
                       (lit "Unexpected Error: argument of type 'int' is not iterable")))
           500).
Proof. vm_compute. reflexivity. Qed.

(** ** The upstream call and its outcomes *)

(** C7, at the body that maps ['txt'] to the one-character string U+D83D
    (a lone surrogate, which JSON writes as a [\ud83d] escape): the prompt
    is present and non-empty, yet the run issues no upstream call.  Writing
    the log line of line 78 raises [UnicodeEncodeError], and the last
    [except] clause answers 500 with an "Unexpected Error: ..." message. *)
Theorem C7_surrogate_prompt_gets_no_call (up : upstream) (c : Client)
        (tr : list event) :
  exists m,
    respond up (json_request (txt_body [55357%N])) (mkWorld (Some c) tr)
    = Ret (mkResponse
             (JObj [ (lit "status", JStr (lit "ERROR"));
                     (lit "message", JStr (lit "Unexpected Error: " ++ m)) ])
             500)
    /\ calls (trace (after up (json_request (txt_body [55357%N]))
                           (mkWorld (Some c) tr)))
       = calls tr.
Proof.
  assert (Hget : dict_get (lit "txt") [ (lit "txt", JStr [55357%N]) ]
                 = Some (JStr [55357%N])) by (vm_compute; reflexivity).
  destruct (chat_try_unencodable up _ [55357%N] Hget eq_refl) as [m Hm].
  exists m.
  destruct (early_raise_run up (json_request (txt_body [55357%N]))
                            (mkWorld (Some c) tr) c _ eq_refl Hm)
    as (Hr & _ & Hcalls).
  split; [exact Hr | exact Hcalls].
Qed.

(** The exact answer to that body, with CPython 3.11's wording. *)
Example surrogate_prompt_message :
  respond (up_returns (lit "hi")) (json_request (txt_body [55357%N])) w0
  = Ret (with_status
           (jsonify (error_envelope
                       (lit "Unexpected Error: 'utf-8' codec can't encode character '\ud83d' in position 28: surrogates not allowed")))
           500).
Proof. vm_compute. reflexivity. Qed.

(** A ['txt'] that is a number passes the guard of line 71 but has no
    length: line 78 raises, no upstream call is issued, and the answer is
    500. *)
Example number_txt_answers_500 :
  respond (up_returns (lit "hi"))
          (json_request (JObj [ (lit "txt", JInt 5) ])) w0
  = Ret (with_status
           (jsonify (error_envelope
                       (lit "Unexpected Error: object of type 'int' has no len()")))
           500)
  /\ calls (trace (after (up_returns (lit "hi"))
                         (json_request (JObj [ (lit "txt", JInt 5) ])) w0))
     = [].
Proof. split; vm_compute; reflexivity. Qed.

(** C3: when the body is an object whose ['txt'] can be logged (a string,
    and also a list), the log line of line 78 was written, and the upstream
    call returns the text [t], the handler answers 200 with the envelope
    [{"status": "OK", "data": t}], where [data] is the string [t] itself. *)
Theorem C3_success_wraps_raw_text
        (up : upstream) (w : world) (c : Client) (d : dict)
        (txt : json) (n : Z) (p : json) (t : str) :
  client w = Some c ->
  dict_get (lit "txt") d = Some txt ->
  py_len txt = Ret n ->
  py_slice_to 100 txt = Ret p ->
  encodable_preview p = true ->
  up (trace w ++ [prompt_line n p]) (npc_call txt) = Ret (Some t) ->
  respond up (json_request (JObj d)) w
  = Ret (mkResponse
           (JObj [ (lit "status", JStr (lit "OK")); (lit "data", JStr t) ])
           200).
Proof.
  intros Hc Hget Hlen Hslice Henc Hup. unfold respond.
  rewrite (handler_initialized _ _ _ c Hc). unfold try_except.
  rewrite (chat_try_reaches_upstream up w d txt n p Hget Hlen Hslice Henc).
  rewrite Hup. reflexivity.
Qed.

Lemma C3_success_wraps_raw_text_witness :
  respond (up_returns example_npc_text)
          (json_request (txt_body (lit "hello"))) w0
  = Ret (mkResponse
           (JObj [ (lit "status", JStr (lit "OK"));
                   (lit "data", JStr example_npc_text) ])
           200).
Proof.
  exact (C3_success_wraps_raw_text
           (up_returns example_npc_text) w0 (mkClient (lit "key"))
           [ (lit "txt", JStr (lit "hello")) ] (JStr (lit "hello"))
           5%Z (JStr (lit "hello")) example_npc_text
           eq_refl eq_refl eq_refl eq_refl eq_refl eq_refl).
Defined.

(** C4: when the log line of line 78 was written and the upstream call
    raises an [APIError] whose message is [m], the handler answers 500 with the envelope
    [{"status": "ERROR", "message": "Gemini API Error: " + m}]. *)
Theorem C4_upstream_error_answers_500
        (up : upstream) (w : world) (c : Client) (d : dict)
        (txt : json) (n : Z) (p : json) (m text : str) :
  client w = Some c ->
  dict_get (lit "txt") d = Some txt ->
  py_len txt = Ret n ->
  py_slice_to 100 txt = Ret p ->
  encodable_preview p = true ->
  up (trace w ++ [prompt_line n p]) (npc_call txt)
  = Raise (APIError (Some m) text) ->
  respond up (json_request (JObj d)) w
  = Ret (mkResponse
           (JObj [ (lit "status", JStr (lit "ERROR"));
                   (lit "message", JStr (lit "Gemini API Error: " ++ m)) ])
           500).
Proof.
  intros Hc Hget Hlen Hslice Henc Hup. unfold respond.
  rewrite (handler_initialized _ _ _ c Hc). unfold try_except.
  rewrite (chat_try_reaches_upstream up w d txt n p Hget Hlen Hslice Henc).
  rewrite Hup. reflexivity.
Qed.

Lemma C4_upstream_error_answers_500_witness :
  respond (up_raises (APIError (Some (lit "quota exceeded"))
                               (lit "429 RESOURCE_EXHAUSTED. quota exceeded")))
          (json_request (txt_body (lit "hello"))) w0
  = Ret (mkResponse
           (JObj [ (lit "status", JStr (lit "ERROR"));
                   (lit "message",
                    JStr (lit "Gemini API Error: " ++ lit "quota exceeded")) ])
           500).
Proof.
  exact (C4_upstream_error_answers_500
           (up_raises (APIError (Some (lit "quota exceeded"))
                                (lit "429 RESOURCE_EXHAUSTED. quota exceeded")))
           w0 (mkClient (lit "key"))
           [ (lit "txt", JStr (lit "hello")) ] (JStr (lit "hello"))
           5%Z (JStr (lit "hello")) (lit "quota exceeded")
           (lit "429 RESOURCE_EXHAUSTED. quota exceeded")
           eq_refl eq_refl eq_refl eq_refl eq_refl eq_refl).
Defined.

(** The specification's example, letter for letter. *)
Example quota_exceeded_message :
  lit "Gemini API Error: " ++ lit "quota exceeded"
  = lit "Gemini API Error: quota exceeded".
Proof. vm_compute. reflexivity. Qed.

(** C5: when the [try] body raises an exception that is not an [APIError]
    (raised by [request.get_json()], by an operator applied to the body, or
    by the upstream call), the handler answers 500 with the envelope
    [{"status": "ERROR", "message": "Unexpected Error: " + str(e)}]; the
    stack trace is written to the server's output, and the response holds
    nothing of the exception but [str(e)]. *)
Theorem C5_unexpected_error_answers_500
        (up : upstream) (req : request) (w w' : world) (c : Client)
        (cls text : str) :
  client w = Some c ->
  chat_try up req w = (Raise (Exception_ cls text), w') ->
  respond up req w
  = Ret (mkResponse
           (JObj [ (lit "status", JStr (lit "ERROR"));
                   (lit "message", JStr (lit "Unexpected Error: " ++ text)) ])
           500)
  /\ stack_traces (trace (after up req w))
     = stack_traces (trace w') ++ [ Exception_ cls text ].
Proof.
  intros Hc Htry. unfold respond, after.
  rewrite (handler_initialized _ _ _ c Hc). unfold try_except.
  rewrite Htry. cbn [is_APIError]. rewrite on_Exception_run.
  split; [reflexivity|].
  cbn [snd trace]. rewrite !stack_traces_app. cbn.
  rewrite !app_nil_r. reflexivity.
Qed.

Lemma C5_unexpected_error_answers_500_witness :
  respond (up_raises (Exception_ (lit "ReadTimeout") (lit "timed out")))
          (json_request (txt_body (lit "hello"))) w0
  = Ret (mkResponse
           (JObj [ (lit "status", JStr (lit "ERROR"));
                   (lit "message",
                    JStr (lit "Unexpected Error: " ++ lit "timed out")) ])
           500)
  /\ stack_traces
       (trace (after (up_raises (Exception_ (lit "ReadTimeout") (lit "timed out")))
                     (json_request (txt_body (lit "hello"))) w0))
     = [] ++ [ Exception_ (lit "ReadTimeout") (lit "timed out") ].
Proof.
  exact (C5_unexpected_error_answers_500
           (up_raises (Exception_ (lit "ReadTimeout") (lit "timed out")))
           (json_request (txt_body (lit "hello"))) w0
           (snd (chat_try
                   (up_raises (Exception_ (lit "ReadTimeout") (lit "timed out")))
                   (json_request (txt_body (lit "hello"))) w0))
           (mkClient (lit "key")) (lit "ReadTimeout") (lit "timed out")
           eq_refl eq_refl).
Defined.

(** ** The uninitialized client *)

(** Start-up leaves [client] empty exactly when [GEMINI_API_KEY] is unset
    or set to the empty string. *)
Lemma make_client_none (key : option str) :
  make_client key = None <-> key = None \/ key = Some [].
Proof.
  destruct key as [[|x k]|]; simpl; split; intros H; try reflexivity;
    try discriminate; auto.
  destruct H as [H|H]; discriminate.
Qed.

(** C6: when the client is uninitialized, every request - whatever its
    body, and also when [request.get_json()] would raise - is answered with
    the envelope [{"status": "ERROR", "message": "API client is not
    initialized (Missing API Key)."}] and the default status 200; the world
    is left as it was, so nothing was printed, no upstream call was issued
    and the body was not looked at. *)
Theorem C6_uninitialized_client
        (up : upstream) (req : request) (w : world) :
  client w = None ->
  chat_handler up req w
  = (Ret (mkResponse
            (JObj [ (lit "status", JStr (lit "ERROR"));
                    (lit "message",
                     JStr (lit "API client is not initialized (Missing API Key).")) ])
            200),
     w).
Proof. intros H. rewrite (handler_uninitialized up req w H). reflexivity. Qed.

Lemma C6_uninitialized_client_witness :
  client (boot None) = None
  /\ chat_handler (up_returns (lit "hi"))
                  (mkRequest (Raise (Exception_ (lit "BadRequest")
                                                (lit "400 Bad Request"))))
                  (boot None)
     = (Ret (mkResponse
               (JObj [ (lit "status", JStr (lit "ERROR"));
                       (lit "message",
                        JStr (lit "API client is not initialized (Missing API Key).")) ])
               200),
        boot None).
Proof.
  split; [reflexivity|].
  exact (C6_uninitialized_client
           (up_returns (lit "hi"))
           (mkRequest (Raise (Exception_ (lit "BadRequest")
                                         (lit "400 Bad Request"))))
           (boot None) eq_refl).
Defined.

(** ** The schema *)

(** C8: the schema is an object that declares the seven fields with the
    types string, integer, string, string, boolean, string, string, and
    lists all seven as required.  Every upstream call a run of the handler
    issues asks for the JSON mime type and carries this schema; and a run
    on a string prompt whose log line can be written does issue such a call,
    exactly one, with the prompt as [contents]. *)
Theorem C8_schema_and_structured_output :
  schema_type NPC_RESPONSE_SCHEMA = OBJECT
  /\ property_types NPC_RESPONSE_SCHEMA
     = [ (lit "text", STRING); (lit "newIntimacy", INTEGER);
         (lit "newEmotion", STRING); (lit "newTask", STRING);
         (lit "endChat", BOOLEAN); (lit "newDestination", STRING);
         (lit "selectedTool", STRING) ]
  /\ schema_required NPC_RESPONSE_SCHEMA
     = Some (map fst (property_types NPC_RESPONSE_SCHEMA))
  /\ (forall (up : upstream) (req : request) (w : world),
        exists evs,
          trace (after up req w) = trace w ++ evs
          /\ Forall structured_output (calls evs))
  /\ (forall (up : upstream) (w : world) (c : Client) (d : dict) (s : str),
        client w = Some c ->
        dict_get (lit "txt") d = Some (JStr s) ->
        has_surrogate (firstn 100 s) = false ->
        exists c0,
          calls (new_events up (json_request (JObj d)) w) = [ c0 ]
          /\ contents c0 = JStr s
          /\ structured_output c0).
Proof.
  split; [reflexivity|]. split; [reflexivity|]. split; [reflexivity|].
  split.
  - intros up req w. unfold after.
    destruct (handler_shape up req w) as (r & evs & Hrun & _ & Hcalls).
    exists evs. rewrite Hrun. split; [reflexivity|].
    destruct Hcalls as [-> | [txt ->]]; [constructor|].
    constructor; [split; reflexivity | constructor].
  - intros up w c d s Hc Hget Hs.
    assert (Henc : encodable_preview (JStr (firstn 100 s)) = true)
      by (cbn [encodable_preview]; rewrite Hs; reflexivity).
    pose proof (run_on_loggable up w c d (JStr s) _ _
                                Hc Hget eq_refl eq_refl Henc) as Hrun.
    exists (npc_call (JStr s)).
    destruct (up _ _) as [t|e];
      destruct (new_events_of_run up _ w _ _ Hrun) as (_ & _ & -> & _);
      rewrite ?calls_app, ?calls_error_log;
      (split; [reflexivity|]); (split; [reflexivity|]); split; reflexivity.
Qed.

Lemma C8_schema_and_structured_output_witness :
  exists c0,
    calls (new_events (up_returns (lit "hi"))
                      (json_request (txt_body (lit "hello"))) w0)
    = [ c0 ]
    /\ contents c0 = JStr (lit "hello")
    /\ structured_output c0.
Proof.
  exact (proj2 (proj2 (proj2 (proj2 C8_schema_and_structured_output)))
           (up_returns (lit "hi")) w0 (mkClient (lit "key"))
           [ (lit "txt", JStr (lit "hello")) ] (lit "hello")
           eq_refl eq_refl eq_refl).
Defined.

(** ** Statelessness *)

(** C9: against an upstream whose answers do not depend on what happened
    before, handling the same request a second time, in the world the first
    run left, gives the same response as the first run (status code and
    envelope); the runs leave [client] as it was. *)
Theorem C9_same_request_same_response
        (up : upstream) (req : request) (w : world) :
  deterministic up ->
  respond up req (after up req w) = respond up req w
  /\ client (after up req w) = client w
  /\ client (after up req (after up req w)) = client w.
Proof.
  intros Hdet.
  assert (Hclient : forall w1, client (after up req w1) = client w1).
  { intros w1. unfold after.
    destruct (handler_shape up req w1) as (r & evs & Hrun & _).
    rewrite Hrun. reflexivity. }
  split; [|split].
  - apply respond_ext; [exact Hdet | apply Hclient].
  - apply Hclient.
  - rewrite !Hclient. reflexivity.
Qed.

Lemma up_returns_deterministic (t : str) : deterministic (up_returns t).
Proof. intros h1 h2 c. reflexivity. Defined.

Lemma C9_same_request_same_response_witness :
  respond (up_returns (lit "hi")) (json_request (txt_body (lit "hello")))
          (after (up_returns (lit "hi"))
                 (json_request (txt_body (lit "hello"))) w0)
  = respond (up_returns (lit "hi")) (json_request (txt_body (lit "hello"))) w0
  /\ client (after (up_returns (lit "hi"))
                   (json_request (txt_body (lit "hello"))) w0)
     = client w0
  /\ client (after (up_returns (lit "hi"))
                   (json_request (txt_body (lit "hello")))
                   (after (up_returns (lit "hi"))
                          (json_request (txt_body (lit "hello"))) w0))
     = client w0.
Proof.
  exact (C9_same_request_same_response
           (up_returns (lit "hi")) (json_request (txt_body (lit "hello"))) w0
           (up_returns_deterministic (lit "hi"))).
Defined.

(** The hypothesis on the upstream is needed: against an upstream that
    fails on its first call only, the two runs answer differently. *)
Example flaky_upstream_two_answers :
  respond (up_flaky (lit "hi")) (json_request (txt_body (lit "hello"))) w0
  = Ret (with_status
           (jsonify (error_envelope (lit "Unexpected Error: timed out"))) 500)
  /\ respond (up_flaky (lit "hi")) (json_request (txt_body (lit "hello")))
             (after (up_flaky (lit "hi"))
                    (json_request (txt_body (lit "hello"))) w0)
     = Ret (jsonify (ok_envelope (Some (lit "hi")))).
Proof. split; vm_compute; reflexivity. Qed.

(** ** The envelope *)

(** C10: every run of the handler, on every path, returns a response - no
    exception leaves the handler - whose body is an object with a [status]
    that is ["OK"], with a [data] entry and no [message], or ["ERROR"], with
    a [message] entry and no [data]. *)
Theorem C10_uniform_envelope (up : upstream) (req : request) (w : world) :
  exists r,
    respond up req w = Ret r
    /\ envelope_ok (body r) = true.
Proof.
  unfold respond.
  destruct (handler_shape up req w) as (r & evs & Hrun & Hok & _).
  exists r. rewrite Hrun. split; [reflexivity | exact Hok].
Qed.

(** ** The paths of a run *)

(** The [try] body returns the 400 response only where the guard fires. *)
Lemma chat_try_missing_inv (up : upstream) (req : request) (w w' : world) :
  chat_try up req w = (Ret missing_txt_response, w') ->
  exists data, get_json req = Ret data /\ guard_fires data.
Proof.
  unfold chat_try, bind, eval, guard_fires.
  destruct (get_json req) as [data|e0]; [|discriminate].
  destruct (truthy data) eqn:Ht; cbn [negb].
  2: { intros _. exists data. auto. }
  destruct (py_contains (lit "txt") data) as [has|e1] eqn:Hin; [|discriminate].
  destruct has; cbn [negb].
  2: { intros _. exists data. auto. }
  destruct (py_getitem (lit "txt") data) as [txt|e2]; [|discriminate].
  destruct (py_len txt) as [n|e3]; [|discriminate].
  destruct (py_slice_to 100 txt) as [p|e4]; [|discriminate].
  destruct (encodable_preview p) eqn:Henc.
  2: { destruct (print_prompt_raises n p Henc) as [m Hm]. rewrite Hm.
       discriminate. }
  rewrite (print_prompt_writes n p w Henc).
  unfold generate_content, ret. cbn [client trace].
  destruct (up _ _) as [t|e5]; [|discriminate].
  unfold missing_txt_response, with_status, jsonify. cbn [body].
  intros H. injection H as _ Hcode _. discriminate Hcode.
Qed.

(** Every run follows one of the five paths. *)
Lemma handler_paths (up : upstream) (req : request) (w : world) :
  exists r evs,
    path up req w r evs
    /\ chat_handler up req w = (Ret r, mkWorld (client w) (trace w ++ evs)).
Proof.
  destruct (client w) as [c|] eqn:Hc.
  2: { exists uninitialized_response, []. split; [constructor; exact Hc|].
       rewrite (handler_uninitialized up req w Hc), app_nil_r.
       destruct w; cbn in Hc; subst; reflexivity. }
  rewrite (handler_initialized up req w c Hc). unfold try_except.
  destruct (chat_try_cases up req)
    as [[e He] | [He | (d & txt & n & p & -> & Hget & Hlen & Hslice & Henc)]].
  - exists (error_response e), (error_log e).
    split; [apply (path_raised up req w c e Hc He)|].
    rewrite He, except_clauses_run, Hc. reflexivity.
  - destruct (chat_try_missing_inv up req w w (He w)) as (data & Hj & Hg).
    exists missing_txt_response, [].
    split; [apply (path_missing up req w c data Hc Hj Hg)|].
    rewrite He, app_nil_r. destruct w; cbn in Hc; subst; reflexivity.
  - rewrite (chat_try_reaches_upstream up w d txt n p Hget Hlen Hslice Henc).
    destruct (up (trace w ++ [prompt_line n p]) (npc_call txt))
      as [t|e] eqn:Hup.
    + exists (jsonify (ok_envelope t)),
             [ prompt_line n p; GenerateContent (npc_call txt) ].
      split; [apply (path_answered up (json_request (JObj d)) w c d txt n p t Hc eq_refl
                                   Hget Hlen Hslice Henc Hup)|].
      rewrite <- app_assoc, Hc. reflexivity.
    + exists (error_response e),
             ([ prompt_line n p; GenerateContent (npc_call txt) ]
                ++ error_log e).
      split; [apply (path_upstream_raised up (json_request (JObj d)) w c d txt n p e Hc eq_refl
                                          Hget Hlen Hslice Henc Hup)|].
      rewrite except_clauses_run. cbn [client trace].
      rewrite <- !app_assoc, Hc. reflexivity.
Qed.

Lemma str_contains_middle (needle pre post : str) :
  str_contains needle (pre ++ needle ++ post) = true.
Proof.
  assert (Hsw : forall a b : str, starts_with a (a ++ b) = true).
  { induction a as [|x a IH]; intros b; simpl; [reflexivity|].
    rewrite N.eqb_refl. apply IH. }
  assert (Hunfold : forall h : str,
             str_contains needle h
             = starts_with needle h
               || match h with [] => false | _ :: h' => str_contains needle h' end).
  { intros [|y h]; reflexivity. }
  induction pre as [|x pre IH]; cbn [app].
  - rewrite Hunfold, Hsw. reflexivity.
  - rewrite Hunfold, IH. apply orb_true_r.
Qed.

Lemma starts_with_split (a s : str) :
  starts_with a s = true -> exists post, s = a ++ post.
Proof.
  revert s; induction a as [|x a IH]; intros s H.
  - exists s. reflexivity.
  - destruct s as [|y s]; [discriminate|]. simpl in H.
    apply andb_true_iff in H as [Hx Hs]. apply N.eqb_eq in Hx. subst y.
    destruct (IH s Hs) as [post ->]. exists post. reflexivity.
Qed.

(** [needle in hay] holds exactly when [needle] occurs in [hay]. *)
Lemma str_contains_iff (needle hay : str) :
  str_contains needle hay = true
  <-> exists pre post, hay = pre ++ needle ++ post.
Proof.
  split.
  - induction hay as [|y hay IH]; simpl; intros H.
    + rewrite orb_false_r in H. destruct (starts_with_split _ _ H) as [post E].
      exists [], post. exact E.
    + apply orb_true_iff in H as [H|H].
      * destruct (starts_with_split _ _ H) as [post E].
        exists [], post. exact E.
      * destruct (IH H) as (pre & post & ->).
        exists (y :: pre), post. reflexivity.
  - intros (pre & post & ->). apply str_contains_middle.
Qed.

Lemma missing_txt_answers_400_witness :
  chat_handler (up_returns (lit "hi"))
               (json_request (JObj [ (lit "text", JStr (lit "hello")) ])) w0
  = (Ret missing_txt_response, w0).
Proof.
  exact (missing_txt_answers_400
           (up_returns (lit "hi")) w0 (mkClient (lit "key"))
           (JObj [ (lit "text", JStr (lit "hello")) ])
           eq_refl (or_intror eq_refl)).
Defined.

(** With a client, the status is 400 exactly when [request.get_json()]
    returns a body on which the guard of line 71 fires: a falsy body, or a
    container in which ['txt'] is not found. *)
Theorem status_400_iff (up : upstream) (req : request) (w : world)
        (c : Client) :
  client w = Some c ->
  (exists r, respond up req w = Ret r /\ status_code r = 400%Z)
  <-> (exists data,
          get_json req = Ret data
          /\ (truthy data = false \/ py_contains (lit "txt") data = Ret false)).
Proof.
  intros Hc. split.
  - intros (r & Hr & Hcode).
    destruct (handler_paths up req w) as (r' & evs & Hpath & Hrun).
    destruct (new_events_of_run up req w r' evs Hrun) as (Hr' & _).
    rewrite Hr' in Hr. injection Hr as <-.
    destruct Hpath as [Hn | c' data _ Hj Hg | c' e _ _
                       | c' d txt n p t _ _ _ _ _ _ _
                       | c' d txt n p e _ _ _ _ _ _ _].
    + congruence.
    + exists data. split; assumption.
    + rewrite status_code_error_response in Hcode. discriminate.
    + discriminate Hcode.
    + rewrite status_code_error_response in Hcode. discriminate.
  - intros (data & Hj & Hg). destruct req as [gj]. cbn [get_json] in Hj.
    subst gj. exists missing_txt_response. unfold respond.
    change (mkRequest (Ret data)) with (json_request data).
    rewrite (missing_txt_answers_400 up w c data Hc Hg).
    split; reflexivity.
Qed.

Lemma status_400_iff_witness :
  (exists r,
      respond (up_returns (lit "hi")) (json_request (JInt 0)) w0 = Ret r
      /\ status_code r = 400%Z)
  <-> (exists data,
          get_json (json_request (JInt 0)) = Ret data
          /\ (truthy data = false \/ py_contains (lit "txt") data = Ret false)).
Proof.
  exact (status_400_iff (up_returns (lit "hi")) (json_request (JInt 0)) w0
                        (mkClient (lit "key")) eq_refl).
Defined.

(** A list body that holds the string ['txt'], and a string body in which
    [txt] occurs, pass the guard of line 71; [ data['txt'] ] then raises,
    and the answer is 500 with an "Unexpected Error: ..." message.  No
    upstream call is issued. *)
Theorem txt_in_list_or_string_answers_500
        (up : upstream) (w : world) (c : Client) (data : json) :
  client w = Some c ->
  (exists l, data = JList l /\ In (JStr (lit "txt")) l)
  \/ (exists pre post, data = JStr (pre ++ lit "txt" ++ post)) ->
  exists m,
    respond up (json_request data) w
    = Ret (mkResponse
             (JObj [ (lit "status", JStr (lit "ERROR"));
                     (lit "message", JStr (lit "Unexpected Error: " ++ m)) ])
             500)
    /\ calls (trace (after up (json_request data) w)) = calls (trace w).
Proof.
  intros Hc [(l & -> & Hin) | (pre & post & ->)].
  - eexists.
    assert (He : forall w',
               chat_try up (json_request (JList l)) w'
               = (Raise (TypeError
                           (lit "list indices must be integers or slices, not str")),
                  w')).
    { intros w'. unfold chat_try, bind, eval, json_request, get_json.
      assert (Ht : truthy (JList l) = true) by (destruct l; [destruct Hin | reflexivity]).
      rewrite Ht. cbn [negb].
      assert (Hex : py_contains (lit "txt") (JList l) = Ret true).
      { unfold py_contains. f_equal. apply existsb_exists.
        exists (JStr (lit "txt")). split; [exact Hin | apply str_eqb_refl]. }
      rewrite Hex. reflexivity. }
    destruct (early_raise_run up _ w c _ Hc He) as (Hr & _ & Hcalls).
    split; [exact Hr | exact Hcalls].
  - eexists.
    assert (He : forall w',
               chat_try up (json_request (JStr (pre ++ lit "txt" ++ post))) w'
               = (Raise (TypeError
                           (lit "string indices must be integers, not 'str'")),
                  w')).
    { intros w'. unfold chat_try, bind, eval, json_request, get_json.
      assert (Ht : truthy (JStr (pre ++ lit "txt" ++ post)) = true).
      { destruct pre; [vm_compute | ]; reflexivity. }
      rewrite Ht. cbn [negb]. unfold py_contains.
      rewrite str_contains_middle. reflexivity. }
    destruct (early_raise_run up _ w c _ Hc He) as (Hr & _ & Hcalls).
    split; [exact Hr | exact Hcalls].
Qed.

Lemma txt_in_list_or_string_answers_500_witness :
  exists m,
    respond (up_returns (lit "hi")) (json_request (JStr ([] ++ lit "txt" ++ []))) w0
    = Ret (mkResponse
             (JObj [ (lit "status", JStr (lit "ERROR"));
                     (lit "message", JStr (lit "Unexpected Error: " ++ m)) ])
             500)
    /\ calls (trace (after (up_returns (lit "hi"))
                           (json_request (JStr ([] ++ lit "txt" ++ []))) w0))
       = calls (trace w0).
Proof.
  exact (txt_in_list_or_string_answers_500
           (up_returns (lit "hi")) w0 (mkClient (lit "key"))
           (JStr ([] ++ lit "txt" ++ [])) eq_refl
           (or_intror (ex_intro _ [] (ex_intro _ [] eq_refl)))).
Defined.

(** A ['txt'] that is neither a string nor a list ([null], a boolean, a
    number, an object) passes the guard but cannot be logged: line 78
    raises, the answer is 500 with an "Unexpected Error: ..." message, and no
    upstream call is issued. *)
Theorem unloggable_txt_answers_500
        (up : upstream) (w : world) (c : Client) (d : dict) (v : json) :
  client w = Some c ->
  dict_get (lit "txt") d = Some v ->
  loggable v = false ->
  exists m,
    respond up (json_request (JObj d)) w
    = Ret (mkResponse
             (JObj [ (lit "status", JStr (lit "ERROR"));
                     (lit "message", JStr (lit "Unexpected Error: " ++ m)) ])
             500)
    /\ calls (trace (after up (json_request (JObj d)) w)) = calls (trace w).
Proof.
  intros Hc Hget Hlog.
  assert (He : exists m, forall w',
               chat_try up (json_request (JObj d)) w'
               = (Raise (TypeError m), w')).
  { destruct v; try discriminate Hlog; eexists; intros w';
      rewrite (chat_try_on_txt up d _ w' Hget); reflexivity. }
  destruct He as [m He]. exists m.
  destruct (early_raise_run up _ w c _ Hc He) as (Hr & _ & Hcalls).
  split; [exact Hr | exact Hcalls].
Qed.

Lemma unloggable_txt_answers_500_witness :
  exists m,
    respond (up_returns (lit "hi"))
            (json_request (JObj [ (lit "txt", JNull) ])) w0
    = Ret (mkResponse
             (JObj [ (lit "status", JStr (lit "ERROR"));
                     (lit "message", JStr (lit "Unexpected Error: " ++ m)) ])
             500)
    /\ calls (trace (after (up_returns (lit "hi"))
                           (json_request (JObj [ (lit "txt", JNull) ])) w0))
       = calls (trace w0).
Proof.
  exact (unloggable_txt_answers_500
           (up_returns (lit "hi")) w0 (mkClient (lit "key"))
           [ (lit "txt", JNull) ] JNull eq_refl eq_refl eq_refl).
Defined.

(** A body that is not a container ([null], a boolean, a number) is
    answered 400 when it is falsy and 500 when it is truthy, where the
    membership test of line 71 raises; no upstream call is issued. *)
Theorem scalar_body_status
        (up : upstream) (w : world) (c : Client) (data : json) :
  client w = Some c ->
  scalar data = true ->
  exists r,
    respond up (json_request data) w = Ret r
    /\ status_code r = (if truthy data then 500 else 400)%Z
    /\ calls (trace (after up (json_request data) w)) = calls (trace w).
Proof.
  intros Hc Hs.
  destruct (truthy data) eqn:Ht.
  - assert (He : exists e, forall w',
                 chat_try up (json_request data) w' = (Raise e, w')).
    { destruct data; try discriminate Hs; eexists; intros w';
        unfold chat_try, bind, eval, json_request, get_json;
        rewrite Ht; reflexivity. }
    destruct He as [e He].
    destruct (early_raise_run up _ w c e Hc He) as (Hr & _ & Hcalls).
    exists (error_response e).
    split; [exact Hr | split; [apply status_code_error_response | exact Hcalls]].
  - exists missing_txt_response. unfold respond, after.
    rewrite (missing_txt_answers_400 up w c data Hc (or_introl Ht)).
    repeat split.
Qed.

Lemma scalar_body_status_witness :
  exists r,
    respond (up_returns (lit "hi")) (json_request (JBool true)) w0 = Ret r
    /\ status_code r = (if truthy (JBool true) then 500 else 400)%Z
    /\ calls (trace (after (up_returns (lit "hi"))
                           (json_request (JBool true)) w0))
       = calls (trace w0).
Proof.
  exact (scalar_body_status (up_returns (lit "hi")) w0 (mkClient (lit "key"))
                            (JBool true) eq_refl eq_refl).
Defined.

(** ** The upstream call: what is logged, what is answered *)

(** When the first 100 characters of a string prompt hold no surrogate,
    the prompt is logged, with its length and these characters, right before
    the upstream call; whatever follows the call in the output of the run is
    no further call.  The preview is the whole prompt when the prompt has at
    most 100 characters. *)
Theorem prompt_logged_before_call
        (up : upstream) (w : world) (c : Client) (d : dict) (s : str) :
  client w = Some c ->
  dict_get (lit "txt") d = Some (JStr s) ->
  has_surrogate (firstn 100 s) = false ->
  exists rest,
    new_events up (json_request (JObj d)) w
    = prompt_line (Z.of_nat (length s)) (JStr (firstn 100 s))
        :: GenerateContent (npc_call (JStr s)) :: rest
    /\ calls rest = []
    /\ length (firstn 100 s) = Nat.min 100 (length s)
    /\ (length s <= 100 -> firstn 100 s = s).
Proof.
  intros Hc Hget Hs.
  assert (Henc : encodable_preview (JStr (firstn 100 s)) = true)
    by (cbn [encodable_preview]; rewrite Hs; reflexivity).
  pose proof (run_on_loggable up w c d (JStr s) _ _
                              Hc Hget eq_refl eq_refl Henc) as Hrun.
  destruct (up _ _) as [t|e];
    destruct (new_events_of_run up _ w _ _ Hrun) as (_ & _ & Hev & _);
    rewrite Hev; eexists;
    (split; [reflexivity|]);
    (split; [try reflexivity; apply calls_error_log|]);
    (split; [apply length_firstn | apply firstn_all2]).
Qed.

Lemma prompt_logged_before_call_witness :
  exists rest,
    new_events (up_returns (lit "hi")) (json_request (txt_body (lit "hello"))) w0
    = prompt_line (Z.of_nat (length (lit "hello")))
                  (JStr (firstn 100 (lit "hello")))
        :: GenerateContent (npc_call (JStr (lit "hello"))) :: rest
    /\ calls rest = []
    /\ length (firstn 100 (lit "hello")) = Nat.min 100 (length (lit "hello"))
    /\ (length (lit "hello") <= 100 -> firstn 100 (lit "hello") = lit "hello").
Proof.
  exact (prompt_logged_before_call
           (up_returns (lit "hi")) w0 (mkClient (lit "key"))
           [ (lit "txt", JStr (lit "hello")) ] (lit "hello")
           eq_refl eq_refl eq_refl).
Defined.

(** When the log line of line 78 was written and the upstream response
    carries no text ([api_response.text] is [None]), the handler still
    answers 200 with an OK envelope, whose [data] is [null]. *)
Theorem no_text_answers_ok_null
        (up : upstream) (w : world) (c : Client) (d : dict)
        (txt : json) (n : Z) (p : json) :
  client w = Some c ->
  dict_get (lit "txt") d = Some txt ->
  py_len txt = Ret n ->
  py_slice_to 100 txt = Ret p ->
  encodable_preview p = true ->
  up (trace w ++ [prompt_line n p]) (npc_call txt) = Ret None ->
  respond up (json_request (JObj d)) w
  = Ret (mkResponse
           (JObj [ (lit "status", JStr (lit "OK")); (lit "data", JNull) ])
           200).
Proof.
  intros Hc Hget Hlen Hslice Henc Hup. unfold respond.
  rewrite (run_on_loggable up w c d txt n p Hc Hget Hlen Hslice Henc), Hup.
  reflexivity.
Qed.

Lemma no_text_answers_ok_null_witness :
  respond (fun _ _ => Ret None) (json_request (txt_body (lit "hello"))) w0
  = Ret (mkResponse
           (JObj [ (lit "status", JStr (lit "OK")); (lit "data", JNull) ])
           200).
Proof.
  exact (no_text_answers_ok_null
           (fun _ _ => Ret None) w0 (mkClient (lit "key"))
           [ (lit "txt", JStr (lit "hello")) ] (JStr (lit "hello"))
           5%Z (JStr (lit "hello"))
           eq_refl eq_refl eq_refl eq_refl eq_refl eq_refl).
Defined.

(** When the log line of line 78 was written and the upstream call raises
    an [APIError], the message of the answer is built from [e.message] alone - the word [None] when the error has no
    message - and not from [str(e)], which goes to the log line; the run
    writes no stack trace. *)
Theorem api_error_message_and_log
        (up : upstream) (w : world) (c : Client) (d : dict)
        (txt : json) (n : Z) (p : json) (message : option str) (text : str) :
  client w = Some c ->
  dict_get (lit "txt") d = Some txt ->
  py_len txt = Ret n ->
  py_slice_to 100 txt = Ret p ->
  encodable_preview p = true ->
  up (trace w ++ [prompt_line n p]) (npc_call txt)
  = Raise (APIError message text) ->
  respond up (json_request (JObj d)) w
  = Ret (mkResponse
           (JObj [ (lit "status", JStr (lit "ERROR"));
                   (lit "message",
                    JStr (lit "Gemini API Error: "
                            ++ match message with
                               | Some m => m
                               | None => lit "None"
                               end)) ])
           500)
  /\ new_events up (json_request (JObj d)) w
     = [ prompt_line n p; GenerateContent (npc_call txt);
         Print [ Lit (lit "API Error: "); Lit text ] ]
  /\ stack_traces (new_events up (json_request (JObj d)) w) = [].
Proof.
  intros Hc Hget Hlen Hslice Henc Hup.
  pose proof (run_on_loggable up w c d txt n p Hc Hget Hlen Hslice Henc)
    as Hrun.
  rewrite Hup in Hrun.
  destruct (new_events_of_run up _ w _ _ Hrun) as (Hr & _ & Hev & _).
  rewrite Hr, Hev. repeat split.
Qed.

Lemma api_error_message_and_log_witness :
  respond (up_raises (APIError None (lit "500 INTERNAL. None")))
          (json_request (txt_body (lit "hello"))) w0
  = Ret (mkResponse
           (JObj [ (lit "status", JStr (lit "ERROR"));
                   (lit "message",
                    JStr (lit "Gemini API Error: " ++ lit "None")) ])
           500)
  /\ new_events (up_raises (APIError None (lit "500 INTERNAL. None")))
                (json_request (txt_body (lit "hello"))) w0
     = [ prompt_line 5 (JStr (lit "hello"));
         GenerateContent (npc_call (JStr (lit "hello")));
         Print [ Lit (lit "API Error: "); Lit (lit "500 INTERNAL. None") ] ]
  /\ stack_traces
       (new_events (up_raises (APIError None (lit "500 INTERNAL. None")))
                   (json_request (txt_body (lit "hello"))) w0)
     = [].
Proof.
  exact (api_error_message_and_log
           (up_raises (APIError None (lit "500 INTERNAL. None")))
           w0 (mkClient (lit "key"))
           [ (lit "txt", JStr (lit "hello")) ] (JStr (lit "hello"))
           5%Z (JStr (lit "hello")) None (lit "500 INTERNAL. None")
           eq_refl eq_refl eq_refl eq_refl eq_refl eq_refl).
Defined.

(** ** Every run, whatever the request *)

Lemma len_gives_loggable (v : json) (n : Z) (p : json) :
  py_len v = Ret n -> py_slice_to 100 v = Ret p -> loggable v = true.
Proof.
  destruct v; intros Hlen Hslice;
    try discriminate Hlen; try discriminate Hslice; reflexivity.
Qed.

(** A run issues at most one upstream call, and issues one only with a
    client, for a body that is an object whose ['txt'] is a string or a
    list; the call carries that value, unchanged, as [contents]. *)
Theorem upstream_called_at_most_once
        (up : upstream) (req : request) (w : world) :
  calls (new_events up req w) = []
  \/ (exists c d v,
         client w = Some c
         /\ get_json req = Ret (JObj d)
         /\ dict_get (lit "txt") d = Some v
         /\ loggable v = true
         /\ calls (new_events up req w)
            = [ mkCall (lit "gemini-2.5-flash") v npc_config ]).
Proof.
  destruct (handler_paths up req w) as (r & evs & Hpath & Hrun).
  destruct (new_events_of_run up req w r evs Hrun) as (_ & _ & -> & _).
  destruct Hpath as [Hn | c data Hc Hj Hg | c e Hc He
                     | c d txt n p t Hc Hj Hget Hlen Hslice Henc Hup
                     | c d txt n p e Hc Hj Hget Hlen Hslice Henc Hup].
  - left; reflexivity.
  - left; reflexivity.
  - left; apply calls_error_log.
  - right. exists c, d, txt. repeat split; try assumption.
    apply (len_gives_loggable txt n p Hlen Hslice).
  - right. exists c, d, txt. repeat split; try assumption.
    + apply (len_gives_loggable txt n p Hlen Hslice).
    + cbn [app calls]. rewrite calls_error_log. reflexivity.
Qed.

(** The answers of the handler, by status code: 200 carries an OK envelope
    or the "not initialized" error, 400 carries the "Missing 'txt' field"
    error, 500 carries a "Gemini API Error: ..." or an "Unexpected Error:
    ..." message; there is no other status. *)
Theorem response_table (up : upstream) (req : request) (w : world) :
  exists r,
    respond up req w = Ret r
    /\ ((status_code r = 200%Z
         /\ ((exists t, body r = JObj (ok_envelope t))
             \/ body r
                = JObj (error_envelope
                          (lit "API client is not initialized (Missing API Key)."))))
        \/ (status_code r = 400%Z
            /\ body r
               = JObj (error_envelope
                         (lit "Missing 'txt' field in JSON request body.")))
        \/ (status_code r = 500%Z
            /\ exists m,
                body r = JObj (error_envelope (lit "Gemini API Error: " ++ m))
                \/ body r = JObj (error_envelope (lit "Unexpected Error: " ++ m)))).
Proof.
  destruct (handler_paths up req w) as (r & evs & Hpath & Hrun).
  destruct (new_events_of_run up req w r evs Hrun) as (Hr & _).
  exists r. split; [exact Hr|].
  assert (Herr : forall e,
             status_code (error_response e) = 500%Z
             /\ exists m,
                 body (error_response e)
                 = JObj (error_envelope (lit "Gemini API Error: " ++ m))
                 \/ body (error_response e)
                    = JObj (error_envelope (lit "Unexpected Error: " ++ m))).
  { intros [message text | cls text]; (split; [reflexivity|]).
    - exists (format_opt message). left; reflexivity.
    - exists text. right; reflexivity. }
  destruct Hpath.
  - left. split; [reflexivity | right; reflexivity].
  - right; left. split; reflexivity.
  - right; right. apply Herr.
  - left. split; [reflexivity | left; exists t; reflexivity].
  - right; right. apply Herr.
Qed.

(** A run writes a stack trace only on the path of the last [except]
    clause: either it writes none, or it writes the one of an exception that
    is not an [APIError], and the answer is 500 with "Unexpected Error: "
    followed by [str(e)]. *)
Theorem stack_trace_only_for_unexpected
        (up : upstream) (req : request) (w : world) :
  stack_traces (new_events up req w) = []
  \/ (exists cls text,
         stack_traces (new_events up req w) = [ Exception_ cls text ]
         /\ respond up req w
            = Ret (mkResponse
                     (JObj [ (lit "status", JStr (lit "ERROR"));
                             (lit "message",
                              JStr (lit "Unexpected Error: " ++ text)) ])
                     500)).
Proof.
  destruct (handler_paths up req w) as (r & evs & Hpath & Hrun).
  destruct (new_events_of_run up req w r evs Hrun) as (Hr & _ & -> & _).
  rewrite Hr.
  destruct Hpath as [Hn | c data Hc Hj Hg | c e Hc He
                     | c d txt n p t Hc Hj Hget Hlen Hslice Henc Hup
                     | c d txt n p e Hc Hj Hget Hlen Hslice Henc Hup];
    try (left; reflexivity);
    destruct e as [message text | cls text];
    try (left; reflexivity);
    right; exists cls, text; split; reflexivity.
Qed.

(** ** Serving many requests *)

Lemma handle_all_cons (up : upstream) (req : request) (rest : list request)
      (w : world) :
  handle_all up (req :: rest) w
  = (respond up req w :: fst (handle_all up rest (after up req w)),
     snd (handle_all up rest (after up req w))).
Proof.
  unfold respond, after. cbn [handle_all].
  destruct (chat_handler up req w) as [r w1]. cbn [fst snd].
  destruct (handle_all up rest w1) as [rs w2]. reflexivity.
Qed.

Lemma after_client (up : upstream) (req : request) (w : world) :
  client (after up req w) = client w.
Proof.
  destruct (handler_paths up req w) as (r & evs & _ & Hrun).
  apply (new_events_of_run up req w r evs Hrun).
Qed.

Lemma handle_all_client (up : upstream) (reqs : list request) (w : world) :
  client (snd (handle_all up reqs w)) = client w.
Proof.
  revert w; induction reqs as [|req rest IH]; intros w; [reflexivity|].
  rewrite handle_all_cons. cbn [snd]. rewrite IH. apply after_client.
Qed.

(** Against an upstream whose answers do not depend on what happened
    before, the answer to a request does not depend on the requests served
    before it. *)
Theorem response_independent_of_earlier_requests
        (up : upstream) (reqs : list request) (req : request) (w : world) :
  deterministic up ->
  respond up req (snd (handle_all up reqs w)) = respond up req w.
Proof.
  intros Hdet. apply respond_ext; [exact Hdet | apply handle_all_client].
Qed.

Lemma response_independent_of_earlier_requests_witness :
  respond (up_returns (lit "hi")) (json_request (txt_body (lit "hello")))
          (snd (handle_all (up_returns (lit "hi"))
                           [ json_request (JInt 5);
                             json_request (txt_body (lit "bye")) ] w0))
  = respond (up_returns (lit "hi")) (json_request (txt_body (lit "hello"))) w0.
Proof.
  exact (response_independent_of_earlier_requests
           (up_returns (lit "hi"))
           [ json_request (JInt 5); json_request (txt_body (lit "bye")) ]
           (json_request (txt_body (lit "hello"))) w0
           (up_returns_deterministic (lit "hi"))).
Defined.

(** Without a client the service stays disabled: every request of any
    sequence gets the "not initialized" answer, and the world never
    changes. *)
Theorem uninitialized_forever
        (up : upstream) (reqs : list request) (w : world) :
  client w = None ->
  handle_all up reqs w
  = (map (fun _ => Ret uninitialized_response) reqs, w).
Proof.
  intros Hc. induction reqs as [|req rest IH]; [reflexivity|].
  cbn [handle_all map].
  rewrite (handler_uninitialized up req w Hc), IH. reflexivity.
Qed.

Lemma uninitialized_forever_witness :
  handle_all (up_returns (lit "hi"))
             [ json_request (txt_body (lit "hello")); json_request JNull ]
             (boot (Some []))
  = (map (fun _ => Ret uninitialized_response)
         [ json_request (txt_body (lit "hello")); json_request JNull ],
     boot (Some [])).
Proof.
  exact (uninitialized_forever
           (up_returns (lit "hi"))
           [ json_request (txt_body (lit "hello")); json_request JNull ]
           (boot (Some [])) eq_refl).
Defined.

(** Serving a sequence of requests only appends to the trace, and issues
    at most as many upstream calls as there are requests: nothing is
    retried. *)
Theorem calls_bounded_by_requests
        (up : upstream) (reqs : list request) (w : world) :
  exists evs,
    trace (snd (handle_all up reqs w)) = trace w ++ evs
    /\ length (calls evs) <= length reqs.
Proof.
  revert w; induction reqs as [|req rest IH]; intros w.
  - exists []. rewrite app_nil_r. split; [reflexivity | apply Nat.le_refl].
  - rewrite handle_all_cons. cbn [snd].
    destruct (IH (after up req w)) as (evs2 & Htr2 & Hlen2).
    destruct (handler_shape up req w) as (r & evs1 & Hrun & _ & Hcalls).
    assert (Htr1 : trace (after up req w) = trace w ++ evs1)
      by (unfold after; rewrite Hrun; reflexivity).
    exists (evs1 ++ evs2). rewrite Htr2, Htr1, <- app_assoc.
    split; [reflexivity|].
    rewrite calls_app, length_app. cbn [length].
    destruct Hcalls as [-> | [txt ->]]; cbn [length]; lia.
Qed.

(** ** Start-up *)

(** After start-up, a request gets the "not initialized" answer exactly
    when [GEMINI_API_KEY] was unset or set to the empty string. *)
Theorem disabled_iff_no_key
        (up : upstream) (req : request) (key : option str) :
  respond up req (boot key) = Ret uninitialized_response
  <-> key = None \/ key = Some [].
Proof.
  split.
  - intros Hr. destruct key as [[|x k]|]; auto.
    exfalso.
    destruct (handler_paths up req (boot (Some (x :: k))))
      as (r & evs & Hpath & Hrun).
    destruct (new_events_of_run up req _ r evs Hrun) as (Hr' & _).
    pose proof (eq_trans (eq_sym Hr') Hr) as E. injection E as ->.
    remember uninitialized_response as r0 eqn:Er0.
    destruct Hpath as [Hn | c data Hc Hj Hg | c e Hc He
                       | c d txt n p t Hc Hj Hget Hlen Hslice Henc Hup
                       | c d txt n p e Hc Hj Hget Hlen Hslice Henc Hup].
    + discriminate Hn.
    + discriminate Er0.
    + apply (f_equal status_code) in Er0.
      rewrite status_code_error_response in Er0. discriminate Er0.
    + destruct t; vm_compute in Er0; discriminate Er0.
    + apply (f_equal status_code) in Er0.
      rewrite status_code_error_response in Er0. discriminate Er0.
  - intros [-> | ->]; unfold respond;
      rewrite handler_uninitialized by reflexivity; reflexivity.
Qed.

(** ** What of the body matters *)

(** Of an object body only the ['txt'] entry matters: two objects that
    agree on it (both lacking it, or both holding the same value) are
    handled alike, in the answer and in everything the run does. *)
Theorem other_fields_ignored
        (up : upstream) (w : world) (d1 d2 : dict) :
  dict_get (lit "txt") d1 = dict_get (lit "txt") d2 ->
  chat_handler up (json_request (JObj d1)) w
  = chat_handler up (json_request (JObj d2)) w.
Proof.
  intros Heq. destruct (client w) as [c|] eqn:Hc.
  2: { rewrite !handler_uninitialized by exact Hc. reflexivity. }
  destruct (dict_get (lit "txt") d2) as [v|] eqn:H2.
  - rewrite !(handler_initialized up _ w c Hc). unfold try_except.
    rewrite (chat_try_on_txt up d1 v w Heq), (chat_try_on_txt up d2 v w H2).
    reflexivity.
  - assert (Hguard : forall d, dict_get (lit "txt") d = None ->
                               guard_fires (JObj d)).
    { intros d Hd. right. unfold py_contains, dict_has. rewrite Hd.
      reflexivity. }
    rewrite (missing_txt_answers_400 up w c (JObj d1) Hc (Hguard d1 Heq)).
    rewrite (missing_txt_answers_400 up w c (JObj d2) Hc (Hguard d2 H2)).
    reflexivity.
Qed.

Lemma other_fields_ignored_witness :
  chat_handler (up_returns (lit "hi"))
               (json_request
                  (JObj [ (lit "npc", JStr (lit "Aiko"));
                          (lit "txt", JStr (lit "hello")) ])) w0
  = chat_handler (up_returns (lit "hi"))
                 (json_request (JObj [ (lit "txt", JStr (lit "hello")) ])) w0.
Proof.
  exact (other_fields_ignored
           (up_returns (lit "hi")) w0
           [ (lit "npc", JStr (lit "Aiko")); (lit "txt", JStr (lit "hello")) ]
           [ (lit "txt", JStr (lit "hello")) ] eq_refl).
Defined.

(** Every ['txt'] that is a string or a list is forwarded when the log
    line of line 78 can be written: the run issues exactly one upstream call,
    with that value as [contents], whatever the upstream then does. *)
Theorem loggable_txt_is_forwarded
        (up : upstream) (w : world) (c : Client) (d : dict)
        (v : json) (n : Z) (p : json) :
  client w = Some c ->
  dict_get (lit "txt") d = Some v ->
  py_len v = Ret n ->
  py_slice_to 100 v = Ret p ->
  encodable_preview p = true ->
  calls (new_events up (json_request (JObj d)) w)
  = [ mkCall (lit "gemini-2.5-flash") v npc_config ].
Proof.
  intros Hc Hget Hlen Hslice Henc.
  pose proof (run_on_loggable up w c d v n p Hc Hget Hlen Hslice Henc) as Hrun.
  destruct (up _ _) as [t|e];
    destruct (new_events_of_run up _ w _ _ Hrun) as (_ & _ & -> & _).
  - reflexivity.
  - rewrite calls_app, calls_error_log. reflexivity.
Qed.

Lemma loggable_txt_is_forwarded_witness :
  calls (new_events (up_raises (Exception_ (lit "ReadTimeout") (lit "timed out")))
                    (json_request
                       (JObj [ (lit "txt", JList [ JStr [55357%N]; JInt 1 ]) ]))
                    w0)
  = [ mkCall (lit "gemini-2.5-flash") (JList [ JStr [55357%N]; JInt 1 ])
             npc_config ].
Proof.
  exact (loggable_txt_is_forwarded
           (up_raises (Exception_ (lit "ReadTimeout") (lit "timed out")))
           w0 (mkClient (lit "key"))
           [ (lit "txt", JList [ JStr [55357%N]; JInt 1 ]) ]
           (JList [ JStr [55357%N]; JInt 1 ]) 2%Z
           (JList [ JStr [55357%N]; JInt 1 ])
           eq_refl eq_refl eq_refl eq_refl eq_refl).
Defined.



Lemma get_json_raises_answers_500_witness :
  respond (up_returns (lit "hi"))
          (mkRequest (Raise (Exception_ (lit "BadRequest")
                                        (lit "400 Bad Request"))))
          w0
  = Ret (with_status
           (jsonify (error_envelope
                       (lit "Unexpected Error: " ++ lit "400 Bad Request")))
           500).
Proof.
  exact (get_json_raises_answers_500
           (up_returns (lit "hi")) w0 (mkClient (lit "key"))
           (lit "BadRequest") (lit "400 Bad Request") eq_refl).
Defined.
